(** * SEC EDGAR Fraud Analyzer: the analysis core, embedded and verified

    A shallow embedding of the quantitative core of the analyzer
    (src/include/sec_analyzer/types.h, src/src/models/*.cpp and
    src/src/analyzer.cpp), followed by the properties of the
    specification that concern it.

    Numbers.  A C++ [double] that takes part in arithmetic is modelled as
    an exact rational ([Q]): rounding is idealised away, every comparison
    of the source is kept as the comparison it is, and every guard the
    source puts in front of a division is kept.  Equalities between
    doubles are therefore stated with [==].  The digit-distribution model
    tests its inputs with [std::isfinite]; its input vector is modelled
    with an explicit class of non-finite values ([xdouble]).  The two
    calls into the C math library ([std::exp], [std::sqrt]) are a
    parameter of the development ([Libm]). *)

From Stdlib Require Import QArith Qabs Qround ZArith Lia Lqa.
From Stdlib Require Import Bool String List DecimalString.
Import ListNotations.

Open Scope string_scope.
Open Scope list_scope.
Open Scope Q_scope.

(** ** Doubles *)

Definition double := Q.

(** The comparison operators of the source, as booleans. *)
Definition Qltb (a b : Q) : bool := negb (Qle_bool b a).
Definition Qleb (a b : Q) : bool := Qle_bool a b.

Declare Scope dbl_scope.
Delimit Scope dbl_scope with dbl.
Notation "a <? b" := (Qltb a b) (at level 70, no associativity) : dbl_scope.
Notation "a <=? b" := (Qleb a b) (at level 70, no associativity) : dbl_scope.
Notation "a >? b" := (Qltb b a) (at level 70, no associativity, only parsing) : dbl_scope.
Notation "a >=? b" := (Qleb b a) (at level 70, no associativity, only parsing) : dbl_scope.
Open Scope dbl_scope.

(** [std::min], [std::max] and [std::clamp] as <algorithm> defines them. *)
Definition fmin (a b : double) : double := if b <? a then b else a.
Definition fmax (a b : double) : double := if a <? b then b else a.
Definition clamp (v lo hi : double) : double :=
  if v <? lo then lo else if hi <? v then hi else v.

(** The math library: [std::exp] (earnings-manipulation model) and
    [std::sqrt] (digit-distribution model). *)
Class Libm := {
  libm_exp : double -> double;
  libm_sqrt : double -> double
}.

(** A [double] that may be non-finite (the input of [std::isfinite]). *)
Inductive xdouble : Type :=
| Finite (q : Q)
| PosInf
| NegInf
| NaN.

Definition isfinite (x : xdouble) : bool :=
  match x with Finite _ => true | _ => false end.

(** Summation of a list of doubles, left to right from [0.0]. *)
Definition sum_doubles (l : list double) : double :=
  fold_left Qplus l 0.

(** ** types.h *)

Inductive FilingType : Type :=
| UNKNOWN | K10 | K10A | Q10 | Q10A | K8 | F20.

Inductive RiskLevel : Type :=
| LOW | MODERATE | ELEVATED | HIGH | CRITICAL.

Inductive TrendDirection : Type :=
| IMPROVING | STABLE | DECLINING.

(** The position of a level in the declaration order of the enum. *)
Definition risk_rank (l : RiskLevel) : nat :=
  match l with
  | LOW => 0 | MODERATE => 1 | ELEVATED => 2 | HIGH => 3 | CRITICAL => 4
  end%nat.

Module RiskWeights.
Record t : Type := {
  beneish : double;
  altman : double;
  piotroski : double;
  fraud_triangle : double;
  benford : double;
  red_flags : double
}.

(** The default member initialisers. *)
Definition default : t :=
  {| beneish := 0.30; altman := 0.25; piotroski := 0.15;
     fraud_triangle := 0.15; benford := 0.05; red_flags := 0.10 |}.

Definition normalize (w : t) : t :=
  let total := beneish w + altman w + piotroski w + fraud_triangle w
               + benford w + red_flags w in
  if total >? 0 then
    {| beneish := beneish w / total; altman := altman w / total;
       piotroski := piotroski w / total;
       fraud_triangle := fraud_triangle w / total;
       benford := benford w / total; red_flags := red_flags w / total |}
  else w.
End RiskWeights.

Module Filing.
Record t : Type := {
  cik : string;
  accession_number : string;
  accession_clean : string;
  form_type : string;
  filed_date : string;
  report_date : string;
  type : FilingType;
  fiscal_year : Z;
  fiscal_quarter : Z
}.

Definition default : t :=
  {| cik := EmptyString; accession_number := EmptyString; accession_clean := EmptyString;
     form_type := EmptyString; filed_date := EmptyString; report_date := EmptyString;
     type := UNKNOWN; fiscal_year := 0; fiscal_quarter := 0 |}.
End Filing.

Record BalanceSheet : Type := {
  total_assets : double;
  current_assets : double;
  cash : double;
  accounts_receivable : double;
  inventory : double;
  ppe : double;
  goodwill : double;
  intangible_assets : double;
  total_liabilities : double;
  current_liabilities : double;
  accounts_payable : double;
  long_term_debt : double;
  total_equity : double;
  retained_earnings : double;
  shares_outstanding : double
}.

Definition working_capital (bs : BalanceSheet) : double :=
  current_assets bs - current_liabilities bs.
Definition debt_ratio (bs : BalanceSheet) : double :=
  if total_assets bs >? 0 then total_liabilities bs / total_assets bs else 0.

Record IncomeStatement : Type := {
  revenue : double;
  cost_of_revenue : double;
  gross_profit : double;
  operating_expenses : double;
  rd_expense : double;
  sga_expense : double;
  depreciation : double;
  operating_income : double;
  interest_expense : double;
  net_income : double;
  eps : double
}.

Definition gross_margin (s : IncomeStatement) : double :=
  if revenue s >? 0 then gross_profit s / revenue s else 0.
Definition operating_margin (s : IncomeStatement) : double :=
  if revenue s >? 0 then operating_income s / revenue s else 0.
Definition net_margin (s : IncomeStatement) : double :=
  if revenue s >? 0 then net_income s / revenue s else 0.

Record CashFlowStatement : Type := {
  operating_cash_flow : double;
  depreciation_amortization : double;
  accounts_receivable_change : double;
  inventory_change : double;
  accounts_payable_change : double;
  investing_cash_flow : double;
  capital_expenditures : double;
  financing_cash_flow : double;
  dividends_paid : double;
  stock_buybacks : double;
  net_change_in_cash : double
}.

Record FinancialData : Type := {
  filing : Filing.t;
  balance_sheet : BalanceSheet;
  income_statement : IncomeStatement;
  cash_flow : CashFlowStatement;
  is_valid : bool;
  error_message : string
}.

(** A value-initialised snapshot: every figure [0], [is_valid] false. *)
Definition default_BalanceSheet : BalanceSheet :=
  Build_BalanceSheet 0 0 0 0 0 0 0 0 0 0 0 0 0 0 0.
Definition default_IncomeStatement : IncomeStatement :=
  Build_IncomeStatement 0 0 0 0 0 0 0 0 0 0 0.
Definition default_CashFlowStatement : CashFlowStatement :=
  Build_CashFlowStatement 0 0 0 0 0 0 0 0 0 0 0.
Definition default_FinancialData : FinancialData :=
  {| filing := Filing.default;
     balance_sheet := default_BalanceSheet;
     income_statement := default_IncomeStatement;
     cash_flow := default_CashFlowStatement;
     is_valid := false;
     error_message := EmptyString |}.

Module BeneishResult.
Record t : Type := {
  m_score : double;
  dsri : double;
  gmi : double;
  aqi : double;
  sgi : double;
  depi : double;
  sgai : double;
  lvgi : double;
  tata : double;
  risk_score : double;
  likely_manipulator : bool;
  zone : string;
  flags : list string
}.
End BeneishResult.

Module AltmanResult.
Record t : Type := {
  z_score : double;
  x1 : double;
  x2 : double;
  x3 : double;
  x4 : double;
  x5 : double;
  bankruptcy_probability : double;
  risk_score : double;
  zone : string
}.
End AltmanResult.

Module PiotroskiResult.
Record t : Type := {
  f_score : Z;
  roa_positive : bool;
  cfo_positive : bool;
  roa_increasing : bool;
  cfo_greater_than_ni : bool;
  leverage_decreasing : bool;
  current_ratio_increasing : bool;
  no_dilution : bool;
  gross_margin_increasing : bool;
  asset_turnover_increasing : bool;
  risk_score : double;
  interpretation : string
}.
End PiotroskiResult.

Module FraudTriangleResult.
Record t : Type := {
  pressure_score : double;
  opportunity_score : double;
  rationalization_score : double;
  overall_risk : double;
  risk_level : RiskLevel;
  pressure_indicators : list string;
  opportunity_indicators : list string;
  rationalization_indicators : list string
}.
End FraudTriangleResult.

Module BenfordResult.
Record t : Type := {
  expected_distribution : list double;
  actual_distribution : list double;
  chi_square : double;
  mad : double;
  deviation_percent : double;
  is_suspicious : bool;
  anomalies : list string
}.
End BenfordResult.

Module RedFlag.
Record t : Type := {
  type : string;
  title : string;
  description : string;
  severity : RiskLevel;
  source : string;
  confidence : double
}.
End RedFlag.

Module TrendAnalysis.
Record t : Type := {
  revenue_trend : TrendDirection;
  income_trend : TrendDirection;
  cash_flow_trend : TrendDirection;
  debt_trend : TrendDirection;
  margin_trend : TrendDirection;
  observations : list string
}.

Definition default : t :=
  {| revenue_trend := STABLE; income_trend := STABLE;
     cash_flow_trend := STABLE; debt_trend := STABLE;
     margin_trend := STABLE; observations := [] |}.
End TrendAnalysis.

Module CompanyInfo.
Record t : Type := {
  name : string;
  ticker : string;
  cik : string;
  sic : string;
  industry : string;
  exchange : string;
  fiscal_year_end : string
}.

Definition default : t :=
  {| name := EmptyString; ticker := EmptyString; cik := EmptyString; sic := EmptyString; industry := EmptyString;
     exchange := EmptyString; fiscal_year_end := EmptyString |}.
End CompanyInfo.

Module AnalysisResult.
Record t : Type := {
  company : CompanyInfo.t;
  filings_analyzed : Z;
  beneish : option BeneishResult.t;
  altman : option AltmanResult.t;
  piotroski : option PiotroskiResult.t;
  fraud_triangle : option FraudTriangleResult.t;
  benford : option BenfordResult.t;
  filings : list FinancialData;
  composite_risk_score : double;
  overall_risk_level : RiskLevel;
  risk_summary : string;
  recommendation : string;
  red_flags : list RedFlag.t;
  trends : TrendAnalysis.t;
  analysis_timestamp : string;
  version : string
}.

(** A default-constructed result: no model has run. *)
Definition default : t :=
  {| company := CompanyInfo.default;
     filings_analyzed := 0;
     beneish := None; altman := None; piotroski := None;
     fraud_triangle := None; benford := None;
     filings := [];
     composite_risk_score := 0;
     overall_risk_level := LOW;
     risk_summary := EmptyString; recommendation := EmptyString;
     red_flags := [];
     trends := TrendAnalysis.default;
     analysis_timestamp := EmptyString;
     version := "2.1.2" |}.
End AnalysisResult.

(** ** models/beneish.cpp: the earnings-manipulation model *)

Module BeneishModel.
Definition THRESHOLD : double := -2.22.
Definition INTERCEPT : double := -4.84.
Definition COEF_DSRI : double := 0.920.
Definition COEF_GMI : double := 0.528.
Definition COEF_AQI : double := 0.404.
Definition COEF_SGI : double := 0.892.
Definition COEF_DEPI : double := 0.115.
Definition COEF_SGAI : double := -0.172.
Definition COEF_TATA : double := 4.679.
Definition COEF_LVGI : double := -0.327.

(** [safe_divide(num, denom, default_val)], all three arguments given. *)
Definition safe_divide (num denom default_val : double) : double :=
  if Qabs denom <? 1e-10 then default_val else num / denom.

(** The default argument declared in beneish.h: [default_val = 1.0]. *)
Definition declared_default : double := 1.0.
Definition safe_divide_ (num denom : double) : double :=
  safe_divide num denom declared_default.

Definition calculate_dsri (current prior : FinancialData) : double :=
  let current_ratio :=
    safe_divide_ (accounts_receivable (balance_sheet current))
                 (revenue (income_statement current)) in
  let prior_ratio :=
    safe_divide_ (accounts_receivable (balance_sheet prior))
                 (revenue (income_statement prior)) in
  safe_divide_ current_ratio prior_ratio.

Definition calculate_gmi (current prior : FinancialData) : double :=
  let current_gm := gross_margin (income_statement current) in
  let prior_gm := gross_margin (income_statement prior) in
  safe_divide_ prior_gm current_gm.

Definition calculate_aqi (current prior : FinancialData) : double :=
  let current_aq :=
    1.0 - safe_divide
            (current_assets (balance_sheet current) + ppe (balance_sheet current))
            (total_assets (balance_sheet current)) 0.0 in
  let prior_aq :=
    1.0 - safe_divide
            (current_assets (balance_sheet prior) + ppe (balance_sheet prior))
            (total_assets (balance_sheet prior)) 0.0 in
  safe_divide_ current_aq prior_aq.

Definition calculate_sgi (current prior : FinancialData) : double :=
  safe_divide_ (revenue (income_statement current))
               (revenue (income_statement prior)).

Definition calculate_depi (current prior : FinancialData) : double :=
  let current_rate :=
    safe_divide_ (depreciation (income_statement current))
                 (depreciation (income_statement current) + ppe (balance_sheet current)) in
  let prior_rate :=
    safe_divide_ (depreciation (income_statement prior))
                 (depreciation (income_statement prior) + ppe (balance_sheet prior)) in
  safe_divide_ prior_rate current_rate.

Definition calculate_sgai (current prior : FinancialData) : double :=
  let current_ratio :=
    safe_divide_ (sga_expense (income_statement current))
                 (revenue (income_statement current)) in
  let prior_ratio :=
    safe_divide_ (sga_expense (income_statement prior))
                 (revenue (income_statement prior)) in
  safe_divide_ current_ratio prior_ratio.

Definition calculate_lvgi (current prior : FinancialData) : double :=
  let current_lev :=
    safe_divide_ (total_liabilities (balance_sheet current))
                 (total_assets (balance_sheet current)) in
  let prior_lev :=
    safe_divide_ (total_liabilities (balance_sheet prior))
                 (total_assets (balance_sheet prior)) in
  safe_divide_ current_lev prior_lev.

Definition calculate_tata (current : FinancialData) : double :=
  let accruals :=
    net_income (income_statement current)
    - operating_cash_flow (cash_flow current) in
  safe_divide accruals (total_assets (balance_sheet current)) 0.0.

Definition is_likely_manipulator (m_score : double) : bool :=
  m_score >? THRESHOLD.

Definition get_zone (m_score : double) : string :=
  if m_score >? -1.78 then "High Risk"
  else if m_score >? THRESHOLD then "Elevated Risk"
  else if m_score >? -2.50 then "Moderate Risk"
  else "Low Risk".

Definition score_to_probability `{Libm} (m_score : double) : double :=
  1.0 / (1.0 + libm_exp (- (m_score + 2.22))).

Definition probability_to_risk (probability : double) : double :=
  clamp probability 0.0 1.0.

(** [generate_flags] reads the six ratios of the result under
    construction. *)
Definition generate_flags (dsri gmi aqi sgi tata lvgi : double) : list string :=
  (if dsri >? 1.465
   then ["High Days Sales in Receivables - potential revenue manipulation"] else [])
  ++ (if gmi >? 1.193
      then ["Declining gross margins - pressure to manipulate"] else [])
  ++ (if aqi >? 1.254
      then ["Increasing non-current assets - potential capitalization abuse"] else [])
  ++ (if sgi >? 1.607
      then ["Rapid sales growth - higher manipulation risk"] else [])
  ++ (if tata >? 0.018
      then ["High accruals relative to assets - earnings quality concern"] else [])
  ++ (if lvgi >? 1.111
      then ["Increasing leverage - financial pressure"] else []).

Definition calculate `{Libm} (current prior : FinancialData) : BeneishResult.t :=
  let dsri := calculate_dsri current prior in
  let gmi := calculate_gmi current prior in
  let aqi := calculate_aqi current prior in
  let sgi := calculate_sgi current prior in
  let depi := calculate_depi current prior in
  let sgai := calculate_sgai current prior in
  let lvgi := calculate_lvgi current prior in
  let tata := calculate_tata current in
  let m_score :=
    INTERCEPT
    + COEF_DSRI * dsri
    + COEF_GMI * gmi
    + COEF_AQI * aqi
    + COEF_SGI * sgi
    + COEF_DEPI * depi
    + COEF_SGAI * sgai
    + COEF_TATA * tata
    + COEF_LVGI * lvgi in
  {| BeneishResult.m_score := m_score;
     BeneishResult.dsri := dsri;
     BeneishResult.gmi := gmi;
     BeneishResult.aqi := aqi;
     BeneishResult.sgi := sgi;
     BeneishResult.depi := depi;
     BeneishResult.sgai := sgai;
     BeneishResult.lvgi := lvgi;
     BeneishResult.tata := tata;
     BeneishResult.risk_score := probability_to_risk (score_to_probability m_score);
     BeneishResult.likely_manipulator := is_likely_manipulator m_score;
     BeneishResult.zone := get_zone m_score;
     BeneishResult.flags := generate_flags dsri gmi aqi sgi tata lvgi |}.
End BeneishModel.

(** ** models/altman.cpp: the bankruptcy-risk model *)

Module AltmanModel.
Definition SAFE_THRESHOLD : double := 2.99.
Definition DISTRESS_THRESHOLD : double := 1.81.
Definition COEF_X1 : double := 1.2.
Definition COEF_X2 : double := 1.4.
Definition COEF_X3 : double := 3.3.
Definition COEF_X4 : double := 0.6.
Definition COEF_X5 : double := 1.0.

Definition safe_divide (num denom default_val : double) : double :=
  if Qabs denom <? 1e-10 then default_val else num / denom.

(** The default argument declared in altman.h: [default_val = 0.0]. *)
Definition declared_default : double := 0.0.
Definition safe_divide_ (num denom : double) : double :=
  safe_divide num denom declared_default.

Definition calculate_x1 (data : FinancialData) : double :=
  let wc := current_assets (balance_sheet data)
            - current_liabilities (balance_sheet data) in
  safe_divide_ wc (total_assets (balance_sheet data)).

Definition calculate_x2 (data : FinancialData) : double :=
  safe_divide_ (retained_earnings (balance_sheet data))
               (total_assets (balance_sheet data)).

Definition calculate_x3 (data : FinancialData) : double :=
  safe_divide_ (operating_income (income_statement data))
               (total_assets (balance_sheet data)).

Definition calculate_x4 (data : FinancialData) (market_cap : double) : double :=
  let equity := if market_cap >? 0 then market_cap
                else total_equity (balance_sheet data) in
  safe_divide_ equity (total_liabilities (balance_sheet data)).

Definition calculate_x5 (data : FinancialData) : double :=
  safe_divide_ (revenue (income_statement data))
               (total_assets (balance_sheet data)).

Definition get_zone (z_score : double) : string :=
  if z_score >? SAFE_THRESHOLD then "Safe"
  else if z_score >? DISTRESS_THRESHOLD then "Gray"
  else "Distress".

Definition score_to_probability (z_score : double) : double :=
  if z_score >? 3.0 then 0.01
  else if z_score >? 2.7 then 0.05
  else if z_score >? 2.4 then 0.10
  else if z_score >? 2.0 then 0.20
  else if z_score >? 1.8 then 0.35
  else if z_score >? 1.5 then 0.50
  else if z_score >? 1.2 then 0.65
  else if z_score >? 1.0 then 0.75
  else if z_score >? 0.5 then 0.85
  else 0.95.

Definition probability_to_risk (probability : double) : double :=
  clamp probability 0.0 1.0.

Definition calculate (data : FinancialData) (market_cap : double) : AltmanResult.t :=
  let x1 := calculate_x1 data in
  let x2 := calculate_x2 data in
  let x3 := calculate_x3 data in
  let x4 := calculate_x4 data market_cap in
  let x5 := calculate_x5 data in
  let z_score := COEF_X1 * x1 + COEF_X2 * x2 + COEF_X3 * x3
                 + COEF_X4 * x4 + COEF_X5 * x5 in
  let bankruptcy_probability := score_to_probability z_score in
  {| AltmanResult.z_score := z_score;
     AltmanResult.x1 := x1;
     AltmanResult.x2 := x2;
     AltmanResult.x3 := x3;
     AltmanResult.x4 := x4;
     AltmanResult.x5 := x5;
     AltmanResult.bankruptcy_probability := bankruptcy_probability;
     AltmanResult.risk_score := probability_to_risk bankruptcy_probability;
     AltmanResult.zone := get_zone z_score |}.

(** The default argument of [calculate]: [market_cap = 0]. *)
Definition calculate_ (data : FinancialData) : AltmanResult.t :=
  calculate data 0.
End AltmanModel.

(** The Z''-score for non-manufacturing companies (Variant B). *)
Module AltmanZPrimeModel.
Definition SAFE_THRESHOLD : double := 2.60.
Definition DISTRESS_THRESHOLD : double := 1.10.

(** The guarded quotient the source writes out four times:
    [(denom > 0) ? num / denom : 0]. *)
Definition ratio (num denom : double) : double :=
  if denom >? 0 then num / denom else 0.

Definition calculate (data : FinancialData) : AltmanResult.t :=
  let wc := current_assets (balance_sheet data)
            - current_liabilities (balance_sheet data) in
  let x1 := ratio wc (total_assets (balance_sheet data)) in
  let x2 := ratio (retained_earnings (balance_sheet data))
                  (total_assets (balance_sheet data)) in
  let x3 := ratio (operating_income (income_statement data))
                  (total_assets (balance_sheet data)) in
  let x4 := ratio (total_equity (balance_sheet data))
                  (total_liabilities (balance_sheet data)) in
  let x5 := 0 in
  let z_score := 6.56 * x1 + 3.26 * x2 + 6.72 * x3 + 1.05 * x4 in
  let zone := if z_score >? SAFE_THRESHOLD then "Safe"
              else if z_score >? DISTRESS_THRESHOLD then "Gray"
              else "Distress" in
  let bankruptcy_probability := AltmanModel.score_to_probability z_score in
  {| AltmanResult.z_score := z_score;
     AltmanResult.x1 := x1;
     AltmanResult.x2 := x2;
     AltmanResult.x3 := x3;
     AltmanResult.x4 := x4;
     AltmanResult.x5 := x5;
     AltmanResult.bankruptcy_probability := bankruptcy_probability;
     AltmanResult.risk_score := clamp bankruptcy_probability 0.0 1.0;
     AltmanResult.zone := zone |}.
End AltmanZPrimeModel.

(** ** models/piotroski.cpp: the financial-strength model *)

Module PiotroskiModel.
Definition WEAK_THRESHOLD : Z := 3.
Definition STRONG_THRESHOLD : Z := 7.

Definition calculate_roa (data : FinancialData) : double :=
  if Qabs (total_assets (balance_sheet data)) <? 1e-10 then 0
  else net_income (income_statement data) / total_assets (balance_sheet data).

Definition calculate_leverage (data : FinancialData) : double :=
  if Qabs (total_assets (balance_sheet data)) <? 1e-10 then 0
  else long_term_debt (balance_sheet data) / total_assets (balance_sheet data).

Definition calculate_current_ratio (data : FinancialData) : double :=
  if Qabs (current_liabilities (balance_sheet data)) <? 1e-10 then 0
  else current_assets (balance_sheet data) / current_liabilities (balance_sheet data).

Definition calculate_gross_margin (data : FinancialData) : double :=
  if Qabs (revenue (income_statement data)) <? 1e-10 then 0
  else gross_profit (income_statement data) / revenue (income_statement data).

Definition calculate_asset_turnover (data : FinancialData) : double :=
  if Qabs (total_assets (balance_sheet data)) <? 1e-10 then 0
  else revenue (income_statement data) / total_assets (balance_sheet data).

(** Each criterion returns the [int] 1 or 0. *)
Definition check_roa_positive (current : FinancialData) : Z :=
  if net_income (income_statement current) >? 0 then 1 else 0.
Definition check_cfo_positive (current : FinancialData) : Z :=
  if operating_cash_flow (cash_flow current) >? 0 then 1 else 0.
Definition check_roa_increasing (current prior : FinancialData) : Z :=
  if calculate_roa current >? calculate_roa prior then 1 else 0.
Definition check_quality_of_earnings (current : FinancialData) : Z :=
  if operating_cash_flow (cash_flow current) >? net_income (income_statement current)
  then 1 else 0.
Definition check_leverage_decreasing (current prior : FinancialData) : Z :=
  if calculate_leverage current <? calculate_leverage prior then 1 else 0.
Definition check_liquidity_increasing (current prior : FinancialData) : Z :=
  if calculate_current_ratio current >? calculate_current_ratio prior then 1 else 0.
Definition check_no_dilution (current prior : FinancialData) : Z :=
  if shares_outstanding (balance_sheet current)
     <=? shares_outstanding (balance_sheet prior) then 1 else 0.
Definition check_gross_margin_increasing (current prior : FinancialData) : Z :=
  if calculate_gross_margin current >? calculate_gross_margin prior then 1 else 0.
Definition check_asset_turnover_increasing (current prior : FinancialData) : Z :=
  if calculate_asset_turnover current >? calculate_asset_turnover prior then 1 else 0.

Definition get_interpretation (f_score : Z) : string :=
  if (f_score >=? STRONG_THRESHOLD)%Z then "Strong"
  else if (f_score >? WEAK_THRESHOLD)%Z then "Moderate"
  else "Weak".

Definition score_to_risk (f_score : Z) : double :=
  clamp (1.0 - (inject_Z f_score / 9.0)) 0.0 1.0.

(** The conversions between [int] and [bool] the assignments perform. *)
Definition int_to_bool (i : Z) : bool := negb (i =? 0)%Z.
Definition bool_to_int (b : bool) : Z := if b then 1%Z else 0%Z.

Definition calculate (current prior : FinancialData) : PiotroskiResult.t :=
  let roa_positive := int_to_bool (check_roa_positive current) in
  let cfo_positive := int_to_bool (check_cfo_positive current) in
  let roa_increasing := int_to_bool (check_roa_increasing current prior) in
  let cfo_greater_than_ni := int_to_bool (check_quality_of_earnings current) in
  let leverage_decreasing := int_to_bool (check_leverage_decreasing current prior) in
  let current_ratio_increasing := int_to_bool (check_liquidity_increasing current prior) in
  let no_dilution := int_to_bool (check_no_dilution current prior) in
  let gross_margin_increasing := int_to_bool (check_gross_margin_increasing current prior) in
  let asset_turnover_increasing := int_to_bool (check_asset_turnover_increasing current prior) in
  let f_score :=
    (bool_to_int roa_positive
     + bool_to_int cfo_positive
     + bool_to_int roa_increasing
     + bool_to_int cfo_greater_than_ni
     + bool_to_int leverage_decreasing
     + bool_to_int current_ratio_increasing
     + bool_to_int no_dilution
     + bool_to_int gross_margin_increasing
     + bool_to_int asset_turnover_increasing)%Z in
  {| PiotroskiResult.f_score := f_score;
     PiotroskiResult.roa_positive := roa_positive;
     PiotroskiResult.cfo_positive := cfo_positive;
     PiotroskiResult.roa_increasing := roa_increasing;
     PiotroskiResult.cfo_greater_than_ni := cfo_greater_than_ni;
     PiotroskiResult.leverage_decreasing := leverage_decreasing;
     PiotroskiResult.current_ratio_increasing := current_ratio_increasing;
     PiotroskiResult.no_dilution := no_dilution;
     PiotroskiResult.gross_margin_increasing := gross_margin_increasing;
     PiotroskiResult.asset_turnover_increasing := asset_turnover_increasing;
     PiotroskiResult.risk_score := score_to_risk f_score;
     PiotroskiResult.interpretation := get_interpretation f_score |}.
End PiotroskiModel.

(** ** models/fraud_triangle.cpp: the risk-factor heuristic model *)

Module FraudTriangleModel.
Definition HIGH_RISK_THRESHOLD : double := 0.7.
Definition MODERATE_RISK_THRESHOLD : double := 0.4.
Definition LOW_RISK_THRESHOLD : double := 0.2.
Definition PRESSURE_WEIGHT : double := 0.35.
Definition OPPORTUNITY_WEIGHT : double := 0.35.
Definition RATIONALIZATION_WEIGHT : double := 0.30.

(** [financials[i]]; every use below is in range. *)
Definition at_ (financials : list FinancialData) (i : nat) : FinancialData :=
  nth i financials default_FinancialData.

(** The indices [1 .. size-1] of the loops [for (size_t i = 1; i < size; ++i)]. *)
Definition indices_from_1 (financials : list FinancialData) : list nat :=
  seq 1 (length financials - 1).

Definition normalize_score (raw_score max_indicators : double) : double :=
  if max_indicators <=? 0 then 0
  else clamp (raw_score / max_indicators) 0.0 1.0.

(** The counter [declining_periods] at the end of the loop of
    [check_declining_revenue]. *)
Definition declining_revenue_periods (financials : list FinancialData) : Z :=
  fold_left
    (fun declining_periods i =>
       if revenue (income_statement (at_ financials i))
          <? revenue (income_statement (at_ financials (i - 1)))
       then (declining_periods + 1)%Z else declining_periods)
    (indices_from_1 financials) 0%Z.

Definition check_declining_revenue (financials : list FinancialData) : bool :=
  if (length financials <? 2)%nat then false
  else (declining_revenue_periods financials
        >=? Z.quot (Z.of_nat (length financials)) 2)%Z.

Definition declining_margin_periods (financials : list FinancialData) : Z :=
  fold_left
    (fun declining_periods i =>
       let current_margin := gross_margin (income_statement (at_ financials i)) in
       let prior_margin := gross_margin (income_statement (at_ financials (i - 1))) in
       if current_margin <? prior_margin
       then (declining_periods + 1)%Z else declining_periods)
    (indices_from_1 financials) 0%Z.

Definition check_declining_margins (financials : list FinancialData) : bool :=
  if (length financials <? 2)%nat then false
  else (declining_margin_periods financials
        >=? Z.quot (Z.of_nat (length financials)) 2)%Z.

Definition check_high_leverage (data : FinancialData) : bool :=
  debt_ratio (balance_sheet data) >? 0.6.

Definition check_negative_cash_flow (data : FinancialData) : bool :=
  operating_cash_flow (cash_flow data) <? 0.

Definition check_earnings_miss_pattern (financials : list FinancialData) : bool :=
  if (length financials <? 3)%nat then false
  else
    let near_misses :=
      fold_left
        (fun near_misses f =>
           let margin := net_margin (income_statement f) in
           if (margin >? 0) && (margin <? 0.02)
           then (near_misses + 1)%Z else near_misses)
        financials 0%Z in
    (near_misses >=? 2)%Z.

Definition detect_pressure_indicators (financials : list FinancialData) : list string :=
  match financials with
  | [] => []
  | _ =>
    (if check_declining_revenue financials
     then ["Declining revenue trend"] else [])
    ++ (if check_declining_margins financials
        then ["Declining profit margins"] else [])
    ++ (if check_high_leverage (at_ financials 0)
        then ["High leverage ratio"] else [])
    ++ (if check_negative_cash_flow (at_ financials 0)
        then ["Negative operating cash flow"] else [])
    ++ (if check_earnings_miss_pattern financials
        then ["Pattern of barely meeting earnings targets"] else [])
  end.

Definition calculate_pressure_score (financials : list FinancialData) : double :=
  let indicators := detect_pressure_indicators financials in
  normalize_score (inject_Z (Z.of_nat (length indicators))) 5.0.

Definition check_complex_structure (financials : list FinancialData) : bool :=
  match financials with
  | [] => false
  | _ =>
    let bs := balance_sheet (at_ financials 0) in
    if total_assets bs >? 0 then
      let intangible_ratio := (goodwill bs + intangible_assets bs) / total_assets bs in
      intangible_ratio >? 0.3
    else false
  end.

Definition check_unusual_transactions (financials : list FinancialData) : bool :=
  if (length financials <? 2)%nat then false
  else
    existsb
      (fun i =>
         let cur := balance_sheet (at_ financials i) in
         let prev := balance_sheet (at_ financials (i - 1)) in
         let ar_change :=
           if accounts_receivable prev >? 0
           then (accounts_receivable cur - accounts_receivable prev)
                / accounts_receivable prev
           else 0 in
         let inv_change :=
           if inventory prev >? 0
           then (inventory cur - inventory prev) / inventory prev
           else 0 in
         (ar_change >? 0.5) || (inv_change >? 0.5))
      (indices_from_1 financials).

Definition check_estimate_changes (financials : list FinancialData) : bool :=
  if (length financials <? 2)%nat then false
  else
    existsb
      (fun i =>
         let cur := at_ financials i in
         let prev := at_ financials (i - 1) in
         let curr_depr_rate :=
           if ppe (balance_sheet cur) >? 0
           then depreciation (income_statement cur) / ppe (balance_sheet cur)
           else 0 in
         let prior_depr_rate :=
           if ppe (balance_sheet prev) >? 0
           then depreciation (income_statement prev) / ppe (balance_sheet prev)
           else 0 in
         (prior_depr_rate >? 0)
         && (Qabs (curr_depr_rate - prior_depr_rate) / prior_depr_rate >? 0.3))
      (indices_from_1 financials).

Definition detect_opportunity_indicators (financials : list FinancialData) : list string :=
  (if check_complex_structure financials
   then ["Complex organizational structure (high intangibles)"] else [])
  ++ (if check_unusual_transactions financials
      then ["Unusual changes in receivables or inventory"] else [])
  ++ (if check_estimate_changes financials
      then ["Significant changes in accounting estimates"] else []).

Definition calculate_opportunity_score (financials : list FinancialData) : double :=
  let indicators := detect_opportunity_indicators financials in
  normalize_score (inject_Z (Z.of_nat (length indicators))) 3.0.

(** The condition tested on each period [f] by
    [check_aggressive_accounting]. *)
Definition income_outruns_cash_flow (f : FinancialData) : bool :=
  (net_income (income_statement f) >? 0)
  && (operating_cash_flow (cash_flow f) >? 0)
  && (net_income (income_statement f) >? operating_cash_flow (cash_flow f) * 1.5).

Definition check_aggressive_accounting (financials : list FinancialData) : bool :=
  match financials with
  | [] => false
  | _ => existsb income_outruns_cash_flow financials
  end.

Definition check_boundary_cases (financials : list FinancialData) : bool :=
  let boundary_count :=
    fold_left
      (fun boundary_count f =>
         let margin := net_margin (income_statement f) in
         if (margin >? 0) && (margin <? 0.01)
         then (boundary_count + 1)%Z else boundary_count)
      financials 0%Z in
  (boundary_count >=? 2)%Z.

Definition detect_rationalization_indicators (financials : list FinancialData) : list string :=
  (if check_aggressive_accounting financials
   then ["Aggressive accounting (income >> cash flow)"] else [])
  ++ (if check_boundary_cases financials
      then ["Earnings consistently at boundary levels"] else []).

Definition calculate_rationalization_score (financials : list FinancialData) : double :=
  let indicators := detect_rationalization_indicators financials in
  normalize_score (inject_Z (Z.of_nat (length indicators))) 2.0.

Definition determine_risk_level (overall_score : double) : RiskLevel :=
  if overall_score >=? HIGH_RISK_THRESHOLD then HIGH
  else if overall_score >=? MODERATE_RISK_THRESHOLD then MODERATE
  else if overall_score >=? LOW_RISK_THRESHOLD then ELEVATED
  else LOW.

Definition calculate (financials : list FinancialData) : FraudTriangleResult.t :=
  let pressure_score := calculate_pressure_score financials in
  let opportunity_score := calculate_opportunity_score financials in
  let rationalization_score := calculate_rationalization_score financials in
  let overall_risk :=
    PRESSURE_WEIGHT * pressure_score
    + OPPORTUNITY_WEIGHT * opportunity_score
    + RATIONALIZATION_WEIGHT * rationalization_score in
  {| FraudTriangleResult.pressure_score := pressure_score;
     FraudTriangleResult.opportunity_score := opportunity_score;
     FraudTriangleResult.rationalization_score := rationalization_score;
     FraudTriangleResult.overall_risk := overall_risk;
     FraudTriangleResult.risk_level := determine_risk_level overall_risk;
     FraudTriangleResult.pressure_indicators := detect_pressure_indicators financials;
     FraudTriangleResult.opportunity_indicators := detect_opportunity_indicators financials;
     FraudTriangleResult.rationalization_indicators :=
       detect_rationalization_indicators financials |}.
End FraudTriangleModel.

(** ** models/benford.cpp: the digit-distribution model *)

(** [std::to_string] on an [int] and on a [size_t]. *)
Definition to_string_int (i : Z) : string := NilZero.string_of_int (Z.to_int i).
Definition to_string_size (n : nat) : string := NilZero.string_of_uint (Nat.to_uint n).

(** [static_cast<int>] of a double: truncation toward zero. *)
Definition trunc_to_int (v : double) : Z := Z.quot (Qnum v) (Z.pos (Qden v)).

Module BenfordModel.
Definition MAD_CLOSE_CONFORMITY : double := 0.006.
Definition MAD_ACCEPTABLE : double := 0.012.
Definition MAD_MARGINALLY_ACCEPTABLE : double := 0.015.
Definition MAD_NONCONFORMITY : double := 0.015.

Definition EXPECTED : list double :=
  [0.301; 0.176; 0.125; 0.097; 0.079; 0.067; 0.058; 0.051; 0.046].

Definition get_expected_distribution : list double := EXPECTED.

(** [std::abs(value) >= bound] on a possibly non-finite double: true on
    the infinities, false on NaN. *)
Definition abs_ge (value : xdouble) (bound : double) : bool :=
  match value with
  | Finite q => Qabs q >=? bound
  | PosInf | NegInf => true
  | NaN => false
  end.

Definition is_valid_value (value : xdouble) : bool :=
  isfinite value && abs_ge value 1.0.

(** [while (value >= 10.0) value /= 10.0;] with an iteration budget. *)
Fixpoint divide_while_ge_10 (fuel : nat) (value : double) : double :=
  match fuel with
  | O => value
  | S fuel' =>
    if value >=? 10.0 then divide_while_ge_10 fuel' (value / 10.0) else value
  end.

(** [while (value < 1.0) value *= 10.0;] with an iteration budget. *)
Fixpoint multiply_while_lt_1 (fuel : nat) (value : double) : double :=
  match fuel with
  | O => value
  | S fuel' =>
    if value <? 1.0 then multiply_while_lt_1 fuel' (value * 10.0) else value
  end.

(** A budget that the first loop never exhausts: the number of binary
    digits of the numerator (see [divide_while_ge_10_exits]). *)
Definition iteration_budget (value : double) : nat :=
  Z.to_nat (Z.log2_up (Z.max 1 (Qnum value)) + 1).

Definition extract_first_digit (value : xdouble) : Z :=
  if negb (is_valid_value value) then 0%Z
  else
    match value with
    | Finite q =>
      let value := Qabs q in
      let value := divide_while_ge_10 (iteration_budget value) value in
      let value := multiply_while_lt_1 (iteration_budget value) value in
      let digit := trunc_to_int value in
      if (digit >=? 1)%Z && (digit <=? 9)%Z then digit else 0%Z
    | _ => 0%Z
    end.

(** [counts[k]++] *)
Fixpoint increment_at (k : nat) (counts : list Z) : list Z :=
  match counts, k with
  | [], _ => []
  | c :: rest, O => (c + 1)%Z :: rest
  | c :: rest, S k' => c :: increment_at k' rest
  end.

(** The state [(counts, total)] after the counting loop of
    [calculate_actual_distribution]. *)
Definition count_first_digits (values : list xdouble) : list Z * Z :=
  fold_left
    (fun '(counts, total) value =>
       let digit := extract_first_digit value in
       if (digit >=? 1)%Z && (digit <=? 9)%Z
       then (increment_at (Z.to_nat (digit - 1)) counts, (total + 1)%Z)
       else (counts, total))
    values
    ([0; 0; 0; 0; 0; 0; 0; 0; 0]%Z, 0%Z).

Definition calculate_actual_distribution (values : list xdouble) : list double :=
  let '(counts, total) := count_first_digits values in
  map (fun i =>
         if (total >? 0)%Z
         then inject_Z (nth i counts 0%Z) / inject_Z total
         else 0.0)
      (seq 0 9).

Definition calculate_chi_square (expected actual : list double) (n : nat) : double :=
  fold_left
    (fun chi_sq i =>
       let exp_count := nth i expected 0 * inject_Z (Z.of_nat n) in
       let act_count := nth i actual 0 * inject_Z (Z.of_nat n) in
       if exp_count >? 0
       then chi_sq + (act_count - exp_count) ^ 2 / exp_count
       else chi_sq)
    (seq 0 9) 0.0.

Definition calculate_mad (expected actual : list double) : double :=
  let sum :=
    fold_left
      (fun sum i => sum + Qabs (nth i actual 0 - nth i expected 0))
      (seq 0 9) 0.0 in
  sum / 9.0.

Definition identify_suspicious_digits `{Libm}
           (expected actual : list double) (n : nat) : list Z :=
  flat_map
    (fun i =>
       let p := nth i expected 0 in
       let p_hat := nth i actual 0 in
       let se := libm_sqrt (p * (1 - p) / inject_Z (Z.of_nat n)) in
       if se >? 0 then
         let z := Qabs (p_hat - p) / se in
         if z >? 2.576 then [(Z.of_nat i + 1)%Z] else []
       else [])
    (seq 0 9).

Definition is_suspicious (mad : double) : bool :=
  mad >? MAD_MARGINALLY_ACCEPTABLE.

Definition get_conformity_level (mad : double) : string :=
  if mad <=? MAD_CLOSE_CONFORMITY then "Close Conformity"
  else if mad <=? MAD_ACCEPTABLE then "Acceptable Conformity"
  else if mad <=? MAD_MARGINALLY_ACCEPTABLE then "Marginally Acceptable"
  else "Nonconformity".

Definition mad_to_risk (mad : double) : double :=
  clamp (mad / 0.02) 0.0 1.0.

(** The counter [n] of [calculate]: the number of valid values. *)
Definition count_valid (values : list xdouble) : nat :=
  fold_left (fun n v => if is_valid_value v then S n else n) values O.

Definition calculate `{Libm} (values : list xdouble) : BenfordResult.t :=
  let expected := get_expected_distribution in
  let actual := calculate_actual_distribution values in
  let n := count_valid values in
  let '(chi_square, mad, deviation_percent, anomalies) :=
    if (0 <? n)%nat then
      let mad := calculate_mad expected actual in
      (calculate_chi_square expected actual n,
       mad,
       mad * 100.0,
       map (fun digit =>
              "Digit " ++ to_string_int digit
              ++ " significantly deviates from expected")%string
           (identify_suspicious_digits expected actual n))
    else (0, 0, 0, []) in
  {| BenfordResult.expected_distribution := expected;
     BenfordResult.actual_distribution := actual;
     BenfordResult.chi_square := chi_square;
     BenfordResult.mad := mad;
     BenfordResult.deviation_percent := deviation_percent;
     BenfordResult.is_suspicious := is_suspicious mad;
     BenfordResult.anomalies := anomalies |}.
End BenfordModel.

(** ** analyzer.cpp: the composite aggregator *)

(** Field assignments on an [AnalysisResult] under construction. *)
Module AnalysisResultUpdate.
Import AnalysisResult.

Definition set_header (r : t) (c : CompanyInfo.t) (fs : list FinancialData)
           (n : Z) (ts : string) : t :=
  {| company := c; filings_analyzed := n;
     beneish := beneish r; altman := altman r; piotroski := piotroski r;
     fraud_triangle := fraud_triangle r; benford := benford r;
     filings := fs;
     composite_risk_score := composite_risk_score r;
     overall_risk_level := overall_risk_level r;
     risk_summary := risk_summary r; recommendation := recommendation r;
     red_flags := red_flags r; trends := trends r;
     analysis_timestamp := ts; version := version r |}.

Definition set_models (r : t)
           (b : BeneishResult.t) (a : AltmanResult.t) (p : PiotroskiResult.t)
           (ft : FraudTriangleResult.t) (bf : BenfordResult.t) : t :=
  {| company := company r; filings_analyzed := filings_analyzed r;
     beneish := Some b; altman := Some a; piotroski := Some p;
     fraud_triangle := Some ft; benford := Some bf;
     filings := filings r;
     composite_risk_score := composite_risk_score r;
     overall_risk_level := overall_risk_level r;
     risk_summary := risk_summary r; recommendation := recommendation r;
     red_flags := red_flags r; trends := trends r;
     analysis_timestamp := analysis_timestamp r; version := version r |}.

Definition set_red_flags (r : t) (v : list RedFlag.t) : t :=
  {| company := company r; filings_analyzed := filings_analyzed r;
     beneish := beneish r; altman := altman r; piotroski := piotroski r;
     fraud_triangle := fraud_triangle r; benford := benford r;
     filings := filings r;
     composite_risk_score := composite_risk_score r;
     overall_risk_level := overall_risk_level r;
     risk_summary := risk_summary r; recommendation := recommendation r;
     red_flags := v; trends := trends r;
     analysis_timestamp := analysis_timestamp r; version := version r |}.

Definition set_trends (r : t) (v : TrendAnalysis.t) : t :=
  {| company := company r; filings_analyzed := filings_analyzed r;
     beneish := beneish r; altman := altman r; piotroski := piotroski r;
     fraud_triangle := fraud_triangle r; benford := benford r;
     filings := filings r;
     composite_risk_score := composite_risk_score r;
     overall_risk_level := overall_risk_level r;
     risk_summary := risk_summary r; recommendation := recommendation r;
     red_flags := red_flags r; trends := v;
     analysis_timestamp := analysis_timestamp r; version := version r |}.

Definition set_composite_risk_score (r : t) (v : double) : t :=
  {| company := company r; filings_analyzed := filings_analyzed r;
     beneish := beneish r; altman := altman r; piotroski := piotroski r;
     fraud_triangle := fraud_triangle r; benford := benford r;
     filings := filings r;
     composite_risk_score := v;
     overall_risk_level := overall_risk_level r;
     risk_summary := risk_summary r; recommendation := recommendation r;
     red_flags := red_flags r; trends := trends r;
     analysis_timestamp := analysis_timestamp r; version := version r |}.

Definition set_overall_risk_level (r : t) (v : RiskLevel) : t :=
  {| company := company r; filings_analyzed := filings_analyzed r;
     beneish := beneish r; altman := altman r; piotroski := piotroski r;
     fraud_triangle := fraud_triangle r; benford := benford r;
     filings := filings r;
     composite_risk_score := composite_risk_score r;
     overall_risk_level := v;
     risk_summary := risk_summary r; recommendation := recommendation r;
     red_flags := red_flags r; trends := trends r;
     analysis_timestamp := analysis_timestamp r; version := version r |}.

Definition set_texts (r : t) (rec summary : string) : t :=
  {| company := company r; filings_analyzed := filings_analyzed r;
     beneish := beneish r; altman := altman r; piotroski := piotroski r;
     fraud_triangle := fraud_triangle r; benford := benford r;
     filings := filings r;
     composite_risk_score := composite_risk_score r;
     overall_risk_level := overall_risk_level r;
     risk_summary := summary; recommendation := rec;
     red_flags := red_flags r; trends := trends r;
     analysis_timestamp := analysis_timestamp r; version := version r |}.
End AnalysisResultUpdate.

Module FraudAnalyzer.
Import AnalysisResultUpdate.

(** The analyzer object: its configured weights and its error slot.
    (The fetcher belongs to the retrieval layer; the five model objects
    hold no state.) *)
Record t : Type := {
  weights_ : RiskWeights.t;
  last_error_ : string
}.

(** [FraudAnalyzer()] and [FraudAnalyzer(const RiskWeights&)]. *)
Definition create : t :=
  {| weights_ := RiskWeights.default; last_error_ := EmptyString |}.
Definition create_with (weights : RiskWeights.t) : t :=
  {| weights_ := weights; last_error_ := EmptyString |}.

Definition set_last_error (self : t) (msg : string) : t :=
  {| weights_ := weights_ self; last_error_ := msg |}.

Definition get_last_error (self : t) : string := last_error_ self.
Definition has_error (self : t) : bool :=
  negb (String.eqb (last_error_ self) EmptyString).

Definition detect_red_flags (result : AnalysisResult.t) : list RedFlag.t :=
  (match AnalysisResult.beneish result with
   | Some b =>
     if BeneishResult.likely_manipulator b then
       [ {| RedFlag.type := "EARNINGS_MANIPULATION";
            RedFlag.title := "Beneish M-Score Above Threshold";
            RedFlag.description := "M-Score indicates potential earnings manipulation";
            RedFlag.severity := HIGH;
            RedFlag.source := "Beneish Model";
            RedFlag.confidence := 0.9 |} ]
     else []
   | None => []
   end)
  ++ (match AnalysisResult.altman result with
      | Some a =>
        if AltmanResult.z_score a <? 1.81 then
          [ {| RedFlag.type := "BANKRUPTCY_RISK";
               RedFlag.title := "Altman Z-Score in Distress Zone";
               RedFlag.description := "High probability of bankruptcy within 2 years";
               RedFlag.severity := HIGH;
               RedFlag.source := "Altman Model";
               RedFlag.confidence := 0.85 |} ]
        else []
      | None => []
      end)
  ++ (match AnalysisResult.piotroski result with
      | Some p =>
        if (PiotroskiResult.f_score p <=? 3)%Z then
          [ {| RedFlag.type := "WEAK_FUNDAMENTALS";
               RedFlag.title := "Low Piotroski F-Score";
               RedFlag.description := "Financial fundamentals indicate weakness";
               RedFlag.severity := ELEVATED;
               RedFlag.source := "Piotroski Model";
               RedFlag.confidence := 0.7 |} ]
        else []
      | None => []
      end)
  ++ (match AnalysisResult.fraud_triangle result with
      | Some ft =>
        if FraudTriangleResult.overall_risk ft >? 0.6 then
          [ {| RedFlag.type := "FRAUD_TRIANGLE";
               RedFlag.title := "High Fraud Triangle Risk";
               RedFlag.description := "Multiple fraud risk factors detected";
               RedFlag.severity := HIGH;
               RedFlag.source := "Fraud Triangle Model";
               RedFlag.confidence := 0.8 |} ]
        else []
      | None => []
      end)
  ++ (match AnalysisResult.benford result with
      | Some bf =>
        if BenfordResult.is_suspicious bf then
          [ {| RedFlag.type := "BENFORD_ANOMALY";
               RedFlag.title := "Benford's Law Deviation";
               RedFlag.description := "Unusual digit distribution in financial figures";
               RedFlag.severity := ELEVATED;
               RedFlag.source := "Benford Model";
               RedFlag.confidence := 0.65 |} ]
        else []
      | None => []
      end).

Definition analyze_trends (financials : list FinancialData) : TrendAnalysis.t :=
  if (length financials <? 2)%nat then TrendAnalysis.default
  else
    let recent := hd default_FinancialData financials in
    let prior := last financials default_FinancialData in
    let revenue_trend :=
      if revenue (income_statement recent) >? revenue (income_statement prior) * 1.05
      then IMPROVING
      else if revenue (income_statement recent) <? revenue (income_statement prior) * 0.95
      then DECLINING
      else STABLE in
    let income_trend :=
      if net_income (income_statement recent) >? net_income (income_statement prior) * 1.05
      then IMPROVING
      else if net_income (income_statement recent) <? net_income (income_statement prior) * 0.95
      then DECLINING
      else STABLE in
    {| TrendAnalysis.revenue_trend := revenue_trend;
       TrendAnalysis.income_trend := income_trend;
       TrendAnalysis.cash_flow_trend := STABLE;
       TrendAnalysis.debt_trend := STABLE;
       TrendAnalysis.margin_trend := STABLE;
       TrendAnalysis.observations := [] |}.

Definition extract_all_values (financials : list FinancialData) : list double :=
  flat_map
    (fun f =>
       [ revenue (income_statement f);
         net_income (income_statement f);
         total_assets (balance_sheet f);
         total_liabilities (balance_sheet f);
         operating_cash_flow (cash_flow f) ])
    financials.

Definition calculate_composite_score (self : t) (result : AnalysisResult.t) : double :=
  let score := 0.0 in
  let score :=
    match AnalysisResult.beneish result with
    | Some b => score + RiskWeights.beneish (weights_ self) * BeneishResult.risk_score b
    | None => score
    end in
  let score :=
    match AnalysisResult.altman result with
    | Some a => score + RiskWeights.altman (weights_ self) * AltmanResult.risk_score a
    | None => score
    end in
  let score :=
    match AnalysisResult.piotroski result with
    | Some p => score + RiskWeights.piotroski (weights_ self) * PiotroskiResult.risk_score p
    | None => score
    end in
  let score :=
    match AnalysisResult.fraud_triangle result with
    | Some ft =>
      score + RiskWeights.fraud_triangle (weights_ self) * FraudTriangleResult.overall_risk ft
    | None => score
    end in
  let score :=
    match AnalysisResult.benford result with
    | Some bf =>
      let benford_risk := if BenfordResult.is_suspicious bf then 0.8 else 0.2 in
      score + RiskWeights.benford (weights_ self) * benford_risk
    | None => score
    end in
  let flag_risk :=
    fmin 1.0 (inject_Z (Z.of_nat (length (AnalysisResult.red_flags result))) / 5.0) in
  let score := score + RiskWeights.red_flags (weights_ self) * flag_risk in
  fmin 1.0 (fmax 0.0 score).

Definition determine_risk_level (score : double) : RiskLevel :=
  if score >=? 0.8 then CRITICAL
  else if score >=? 0.6 then HIGH
  else if score >=? 0.4 then ELEVATED
  else if score >=? 0.2 then MODERATE
  else LOW.

Definition generate_recommendation (result : AnalysisResult.t) : string :=
  match AnalysisResult.overall_risk_level result with
  | CRITICAL =>
    "CRITICAL RISK: Multiple fraud indicators detected. Recommend immediate detailed investigation."
  | HIGH =>
    "HIGH RISK: Significant fraud indicators present. Exercise extreme caution and conduct thorough due diligence."
  | ELEVATED =>
    "ELEVATED RISK: Some concerning indicators detected. Recommend additional scrutiny of financial statements."
  | MODERATE =>
    "MODERATE RISK: Minor concerns noted. Standard due diligence procedures recommended."
  | LOW =>
    "LOW RISK: No significant fraud indicators detected. Financial statements appear consistent with expected patterns."
  end.

(** [analyze_financials]: the result and the analyzer afterwards.
    [timestamp] is what [util::get_timestamp()] returns at the call. *)
Definition analyze_financials `{Libm} (self : t) (timestamp : string)
           (financials : list FinancialData) (company : CompanyInfo.t)
  : AnalysisResult.t * t :=
  let result :=
    set_header AnalysisResult.default company financials
               (Z.of_nat (length financials)) timestamp in
  if (length financials <? 2)%nat then
    (result, set_last_error self "Insufficient financial data for analysis")
  else
    let f0 := nth 0 financials default_FinancialData in
    let f1 := nth 1 financials default_FinancialData in
    let values := extract_all_values financials in
    let result :=
      set_models result
        (BeneishModel.calculate f0 f1)
        (AltmanModel.calculate_ f0)
        (PiotroskiModel.calculate f0 f1)
        (FraudTriangleModel.calculate financials)
        (BenfordModel.calculate (map Finite values)) in
    let result := set_red_flags result (detect_red_flags result) in
    let result := set_trends result (analyze_trends financials) in
    let result :=
      set_composite_risk_score result (calculate_composite_score self result) in
    let result :=
      set_overall_risk_level result
        (determine_risk_level (AnalysisResult.composite_risk_score result)) in
    let result :=
      set_texts result (generate_recommendation result)
        ("Analysis complete with "
         ++ to_string_size (length (AnalysisResult.red_flags result))
         ++ " red flags detected.")%string in
    (result, self).
End FraudAnalyzer.

(** ** types.h: the names of the risk levels *)

Definition risk_level_to_string (level : RiskLevel) : string :=
  match level with
  | LOW => "LOW"
  | MODERATE => "MODERATE"
  | ELEVATED => "ELEVATED"
  | HIGH => "HIGH"
  | CRITICAL => "CRITICAL"
  end.

(** ** models/benford.cpp: the second-digit model *)

Module BenfordSecondDigitModel.
Definition get_expected_distribution : list double :=
  [0.1197; 0.1139; 0.1088; 0.1043; 0.1003;
   0.0967; 0.0934; 0.0904; 0.0876; 0.0850].

(** [while (v >= 100.0) v /= 10.0;] with an iteration budget. *)
Fixpoint divide_while_ge_100 (fuel : nat) (v : double) : double :=
  match fuel with
  | O => v
  | S fuel' => if v >=? 100.0 then divide_while_ge_100 fuel' (v / 10.0) else v
  end.

(** [while (v < 10.0) v *= 10.0;] with an iteration budget. *)
Fixpoint multiply_while_lt_10 (fuel : nat) (v : double) : double :=
  match fuel with
  | O => v
  | S fuel' => if v <? 10.0 then multiply_while_lt_10 fuel' (v * 10.0) else v
  end.

(** The guard of the counting loop: finite, with magnitude at least 10. *)
Definition is_counted (value : xdouble) : bool :=
  isfinite value && BenfordModel.abs_ge value 10.0.

(** The second digit the loop body computes for a counted value. *)
Definition second_digit (value : xdouble) : Z :=
  match value with
  | Finite q =>
    let v := Qabs q in
    let v := divide_while_ge_100 (BenfordModel.iteration_budget v) v in
    let v := multiply_while_lt_10 (BenfordModel.iteration_budget v) v in
    Z.rem (trunc_to_int v) 10
  | _ => 0%Z
  end.

(** The state [(counts, total)] after the counting loop. *)
Definition count_second_digits (values : list xdouble) : list Z * Z :=
  fold_left
    (fun '(counts, total) value =>
       if is_counted value then
         let d := second_digit value in
         if (d >=? 0)%Z && (d <=? 9)%Z
         then (BenfordModel.increment_at (Z.to_nat d) counts, (total + 1)%Z)
         else (counts, total)
       else (counts, total))
    values
    ([0; 0; 0; 0; 0; 0; 0; 0; 0; 0]%Z, 0%Z).

Definition calculate (values : list xdouble) : BenfordResult.t :=
  let expected := get_expected_distribution in
  let '(counts, total) := count_second_digits values in
  let actual :=
    map (fun i =>
           if (total >? 0)%Z
           then inject_Z (nth i counts 0%Z) / inject_Z total
           else 0.0)
        (seq 0 10) in
  let mad :=
    fold_left (fun mad i => mad + Qabs (nth i actual 0 - nth i expected 0))
              (seq 0 10) 0.0 in
  let result_mad := mad / 10.0 in
  {| BenfordResult.expected_distribution := expected;
     BenfordResult.actual_distribution := actual;
     BenfordResult.chi_square := 0;
     BenfordResult.mad := result_mad;
     BenfordResult.deviation_percent := result_mad * 100.0;
     BenfordResult.is_suspicious := result_mad >? 0.012;
     BenfordResult.anomalies := [] |}.
End BenfordSecondDigitModel.

(** ** A rational math library for closed examples

    Every theorem below is proved for an arbitrary [Libm].  To run the
    model on concrete inputs the closed examples use this instance:
    [exp] by its Taylor polynomial of degree 6, [sqrt] by three Newton
    steps.  None of the examples depends on how good the approximation
    is. *)

Fixpoint taylor_exp (k : nat) (x term acc : Q) (i : Z) : Q :=
  match k with
  | O => acc
  | S k' =>
    let term' := Qred (term * x / inject_Z i) in
    taylor_exp k' x term' (Qred (acc + term')) (i + 1)%Z
  end.

Fixpoint newton_sqrt (k : nat) (a y : Q) : Q :=
  match k with
  | O => y
  | S k' => newton_sqrt k' a (Qred ((y + a / y) / 2))
  end.

#[export] Instance rational_libm : Libm := {
  libm_exp x := taylor_exp 6 x 1 1 1%Z;
  libm_sqrt a := if a <=? 0 then 0 else newton_sqrt 3 a (Qred ((1 + a) / 2))
}.

(** ** Reading a composite result *)

(** The presence of the five optional model results. *)
Definition present {A : Type} (o : option A) : bool :=
  match o with Some _ => true | None => false end.

Definition all_models_present (r : AnalysisResult.t) : bool :=
  present (AnalysisResult.beneish r)
  && present (AnalysisResult.altman r)
  && present (AnalysisResult.piotroski r)
  && present (AnalysisResult.fraud_triangle r)
  && present (AnalysisResult.benford r).

Definition no_model_present (r : AnalysisResult.t) : bool :=
  negb (present (AnalysisResult.beneish r))
  && negb (present (AnalysisResult.altman r))
  && negb (present (AnalysisResult.piotroski r))
  && negb (present (AnalysisResult.fraud_triangle r))
  && negb (present (AnalysisResult.benford r)).

(** The number of snapshots of a sequence whose validity flag is set. *)
Definition valid_snapshots (financials : list FinancialData) : nat :=
  length (filter is_valid financials).

(** The composite score as the specification words it: the sum, over the
    models that ran, of weight times risk contribution, plus the red-flag
    weight times [min(1, flag_count/5)], clamped to [0,1].  The
    contribution of the digit-distribution model is the parameter
    [benford_risk]. *)
Definition weighted_contributions (benford_risk : BenfordResult.t -> double)
           (w : RiskWeights.t) (r : AnalysisResult.t) : list double :=
  (match AnalysisResult.beneish r with
   | Some b => [RiskWeights.beneish w * BeneishResult.risk_score b]
   | None => []
   end)
  ++ (match AnalysisResult.altman r with
      | Some a => [RiskWeights.altman w * AltmanResult.risk_score a]
      | None => []
      end)
  ++ (match AnalysisResult.piotroski r with
      | Some p => [RiskWeights.piotroski w * PiotroskiResult.risk_score p]
      | None => []
      end)
  ++ (match AnalysisResult.fraud_triangle r with
      | Some ft => [RiskWeights.fraud_triangle w * FraudTriangleResult.overall_risk ft]
      | None => []
      end)
  ++ (match AnalysisResult.benford r with
      | Some bf => [RiskWeights.benford w * benford_risk bf]
      | None => []
      end).

Definition red_flag_term (w : RiskWeights.t) (r : AnalysisResult.t) : double :=
  RiskWeights.red_flags w
  * fmin 1.0 (inject_Z (Z.of_nat (length (AnalysisResult.red_flags r))) / 5.0).

Definition composite_formula (benford_risk : BenfordResult.t -> double)
           (w : RiskWeights.t) (r : AnalysisResult.t) : double :=
  clamp (sum_doubles (weighted_contributions benford_risk w r) + red_flag_term w r) 0 1.

(** The digit-distribution contribution the specification names,
    [clamp(MAD/0.02, 0, 1)], and the one the aggregator computes. *)
Definition benford_risk_by_mad (bf : BenfordResult.t) : double :=
  BenfordModel.mad_to_risk (BenfordResult.mad bf).
Definition benford_risk_by_flag (bf : BenfordResult.t) : double :=
  if BenfordResult.is_suspicious bf then 0.8 else 0.2.

(** Validity of an input of the digit-distribution model as the
    specification words it: finite, with absolute magnitude at least 1. *)
Definition valid_value (v : xdouble) : Prop :=
  exists q : Q, v = Finite q /\ 1 <= Qabs q.

(** The two division rules of the models, as relations between the
    operands and the result.  [safe_quotient dflt n d result]: the result
    is [dflt] when |d| < 1e-10 and the ordinary quotient otherwise.
    [positive_quotient n d result]: the result is 0 when d is not
    positive and the ordinary quotient otherwise. *)
Definition safe_quotient (dflt n d result : double) : Prop :=
  (Qabs d < 1e-10 -> result == dflt) /\ (1e-10 <= Qabs d -> result == n / d).

Definition positive_quotient (n d result : double) : Prop :=
  (d <= 0 -> result == 0) /\ (0 < d -> result == n / d).

(** The description pushed by [detect_rationalization_indicators] for the
    aggressive-accounting indicator. *)
Definition aggressive_accounting_indicator : string :=
  "Aggressive accounting (income >> cash flow)".

(** The declining-revenue rule as the specification words it, for a
    sequence ordered most-recent first: the comparison of the consecutive
    periods [i-1] (newer) and [i] (older) shows a decrease when the newer
    one has the lower revenue, and the indicator triggers when more than
    half of the comparisons do. *)
Definition decreasing_comparisons (financials : list FinancialData) : nat :=
  length
    (filter
       (fun i =>
          revenue (income_statement (FraudTriangleModel.at_ financials (i - 1)))
          <? revenue (income_statement (FraudTriangleModel.at_ financials i)))
       (FraudTriangleModel.indices_from_1 financials)).

Definition majority_shows_decrease (financials : list FinancialData) : bool :=
  (length financials - 1 <? 2 * decreasing_comparisons financials)%nat.

(** The sum of the six weights, and the fieldwise equality of two weight
    records as rationals. *)
Definition weights_total (w : RiskWeights.t) : double :=
  RiskWeights.beneish w + RiskWeights.altman w + RiskWeights.piotroski w
  + RiskWeights.fraud_triangle w + RiskWeights.benford w + RiskWeights.red_flags w.



(** The types of the red flags of a result, in order. *)
Definition red_flag_types (r : AnalysisResult.t) : list string :=
  map RedFlag.type (FraudAnalyzer.detect_red_flags r).

(** Powers of ten as doubles. *)
Definition pow10 (k : nat) : double := inject_Z (10 ^ Z.of_nat k).

(** The sum of a list of counters. *)
Definition zsum (l : list Z) : Z := fold_right Z.add 0%Z l.

(** The distance from [e] to the nearest multiple of [1/n] on either
    side of it, and the bound it gives on the MAD of any distribution
    whose entries are multiples of [1/n]. *)
Definition grid_gap (e : double) (n : Z) : double :=
  let m := Qfloor (e * inject_Z n) in
  fmin (e - inject_Z m / inject_Z n) (inject_Z (m + 1) / inject_Z n - e).

Definition mad_floor (n : Z) : double :=
  fold_left (fun sum i => sum + grid_gap (nth i BenfordModel.EXPECTED 0) n)
            (seq 0 9) 0.0 / 9.0.

(** ** Example inputs *)

(** The snapshot of the bankruptcy-model scenario of the specification
    (with the net income and operating cash flow of its accrual
    scenario), and a prior period for it. *)
Definition scenario_snapshot : FinancialData :=
  {| filing := Filing.default;
     balance_sheet :=
       {| total_assets := 1000; current_assets := 600; cash := 0;
          accounts_receivable := 0; inventory := 0; ppe := 0; goodwill := 0;
          intangible_assets := 0; total_liabilities := 500;
          current_liabilities := 400; accounts_payable := 0;
          long_term_debt := 0; total_equity := 500;
          retained_earnings := 200; shares_outstanding := 0 |};
     income_statement :=
       {| revenue := 900; cost_of_revenue := 0; gross_profit := 0;
          operating_expenses := 0; rd_expense := 0; sga_expense := 0;
          depreciation := 0; operating_income := 150; interest_expense := 0;
          net_income := 100; eps := 0 |};
     cash_flow :=
       {| operating_cash_flow := 80; depreciation_amortization := 0;
          accounts_receivable_change := 0; inventory_change := 0;
          accounts_payable_change := 0; investing_cash_flow := 0;
          capital_expenditures := 0; financing_cash_flow := 0;
          dividends_paid := 0; stock_buybacks := 0; net_change_in_cash := 0 |};
     is_valid := true;
     error_message := EmptyString |}.

Definition prior_snapshot : FinancialData :=
  {| filing := Filing.default;
     balance_sheet :=
       {| total_assets := 950; current_assets := 550; cash := 0;
          accounts_receivable := 0; inventory := 0; ppe := 0; goodwill := 0;
          intangible_assets := 0; total_liabilities := 500;
          current_liabilities := 380; accounts_payable := 0;
          long_term_debt := 0; total_equity := 450;
          retained_earnings := 150; shares_outstanding := 0 |};
     income_statement :=
       {| revenue := 800; cost_of_revenue := 0; gross_profit := 0;
          operating_expenses := 0; rd_expense := 0; sga_expense := 0;
          depreciation := 0; operating_income := 120; interest_expense := 0;
          net_income := 70; eps := 0 |};
     cash_flow :=
       {| operating_cash_flow := 90; depreciation_amortization := 0;
          accounts_receivable_change := 0; inventory_change := 0;
          accounts_payable_change := 0; investing_cash_flow := 0;
          capital_expenditures := 0; financing_cash_flow := 0;
          dividends_paid := 0; stock_buybacks := 0; net_change_in_cash := 0 |};
     is_valid := true;
     error_message := EmptyString |}.

(** A snapshot that only sets the figures named; everything else is as
    value-initialised, and the validity flag is set. *)
Definition snapshot_with (rev ni ocf : double) (bs : BalanceSheet) : FinancialData :=
  {| filing := Filing.default;
     balance_sheet := bs;
     income_statement :=
       {| revenue := rev; cost_of_revenue := 0; gross_profit := 0;
          operating_expenses := 0; rd_expense := 0; sga_expense := 0;
          depreciation := 0; operating_income := 0; interest_expense := 0;
          net_income := ni; eps := 0 |};
     cash_flow :=
       {| operating_cash_flow := ocf; depreciation_amortization := 0;
          accounts_receivable_change := 0; inventory_change := 0;
          accounts_payable_change := 0; investing_cash_flow := 0;
          capital_expenditures := 0; financing_cash_flow := 0;
          dividends_paid := 0; stock_buybacks := 0; net_change_in_cash := 0 |};
     is_valid := true;
     error_message := EmptyString |}.

(** Revenue figures only, most-recent first. *)
Definition revenues (l : list double) : list FinancialData :=
  map (fun rev => snapshot_with rev 0 0 default_BalanceSheet) l.

(** A period with net income 100 and operating cash flow -50. *)
Definition cash_burning_period : FinancialData :=
  snapshot_with 1000 100 (-50) default_BalanceSheet.

(** A balance sheet with negative total assets, current assets 600 and
    current liabilities 400. *)
Definition negative_assets_snapshot : FinancialData :=
  snapshot_with 900 0 0
    {| total_assets := -1000; current_assets := 600; cash := 0;
       accounts_receivable := 0; inventory := 0; ppe := 0; goodwill := 0;
       intangible_assets := 0; total_liabilities := 500;
       current_liabilities := 400; accounts_payable := 0;
       long_term_debt := 0; total_equity := 500;
       retained_earnings := 200; shares_outstanding := 0 |}.

Definition example_timestamp : string := "2024-01-01T00:00:00Z".

(** * Properties *)

(** ** Comparisons and clamping *)

Lemma Qltb_true (a b : Q) : (a <? b) = true <-> a < b.
Proof.
  unfold Qltb. rewrite negb_true_iff.
  split; intro H.
  - apply Qnot_le_lt. intro Hle. apply Qle_bool_iff in Hle. congruence.
  - destruct (Qle_bool b a) eqn:E; [|reflexivity].
    apply Qle_bool_iff in E. exfalso. apply (Qlt_not_le _ _ H E).
Qed.

Lemma Qltb_false (a b : Q) : (a <? b) = false <-> b <= a.
Proof.
  unfold Qltb. rewrite negb_false_iff. apply Qle_bool_iff.
Qed.

Lemma Qleb_true (a b : Q) : (a <=? b) = true <-> a <= b.
Proof. apply Qle_bool_iff. Qed.

Lemma Qleb_false (a b : Q) : (a <=? b) = false <-> b < a.
Proof.
  unfold Qleb. split; intro H.
  - apply Qnot_le_lt. intro Hle. apply Qle_bool_iff in Hle. congruence.
  - destruct (Qle_bool a b) eqn:E; [|reflexivity].
    apply Qle_bool_iff in E. exfalso. apply (Qlt_not_le _ _ H E).
Qed.

(** Case analysis on an innermost comparison of the goal, leaving the
    order fact as a hypothesis. *)
Ltac no_branch t :=
  lazymatch t with
  | context [if _ then _ else _] => fail
  | _ => idtac
  end.

Ltac dbl_case :=
  match goal with
  | |- context [Qltb ?a ?b] =>
    no_branch a; no_branch b;
    let E := fresh "E" in
    destruct (Qltb a b) eqn:E;
    [apply Qltb_true in E | apply Qltb_false in E]
  | |- context [Qleb ?a ?b] =>
    no_branch a; no_branch b;
    let E := fresh "E" in
    destruct (Qleb a b) eqn:E;
    [apply Qleb_true in E | apply Qleb_false in E]
  end.

Ltac dbl_cases := repeat dbl_case.

Lemma fmin_fmax_bounds (x : double) : 0 <= fmin 1.0 (fmax 0.0 x) <= 1.
Proof.
  unfold fmin, fmax. dbl_cases; lra.
Qed.

Lemma fmin_fmax_clamp (x y : double) :
  x == y -> fmin 1.0 (fmax 0.0 x) == clamp y 0 1.
Proof.
  intro H. unfold fmin, fmax, clamp. dbl_cases; lra.
Qed.

Lemma clamp_bounds (v lo hi : double) : lo <= hi -> lo <= clamp v lo hi <= hi.
Proof.
  intro H. unfold clamp. dbl_cases; lra.
Qed.

(** ** The composite score (analyzer.cpp, [calculate_composite_score]) *)

Section CompositeScore.
Import FraudAnalyzer.

(** C3: for every combination of present and absent model results and
    every assignment of weights (non-negative or not), the composite
    risk score computed by the aggregator lies in [0,1]. *)
Theorem composite_score_in_unit_interval :
  forall (self : FraudAnalyzer.t) (result : AnalysisResult.t),
    0 <= calculate_composite_score self result <= 1.
Proof.
  intros self result. unfold calculate_composite_score.
  apply fmin_fmax_bounds.
Qed.

(** The score stored by a whole analysis is in [0,1] as well, whatever
    the number of snapshots. *)
Lemma analysis_composite_in_unit_interval `{Libm} :
  forall self ts financials company,
    0 <= AnalysisResult.composite_risk_score
           (fst (analyze_financials self ts financials company)) <= 1.
Proof.
  intros. unfold analyze_financials.
  destruct (length financials <? 2)%nat; cbn [fst].
  - cbn. lra.
  - cbn [AnalysisResultUpdate.set_texts AnalysisResultUpdate.set_overall_risk_level
         AnalysisResultUpdate.set_composite_risk_score
         AnalysisResult.composite_risk_score].
    unfold calculate_composite_score. apply fmin_fmax_bounds.
Qed.
End CompositeScore.

(** ** Risk levels (analyzer.cpp, [determine_risk_level]) *)

(** C4: the mapping from composite score to risk level is exhaustive and
    monotonic.  Every score gets the one level its threshold band names
    (at least 0.8 critical, at least 0.6 high, at least 0.4 elevated, at
    least 0.2 moderate, below 0.2 low), and for scores [s1 <= s2] the
    level of [s2] is never lower than that of [s1]. *)
Theorem determine_risk_level_exhaustive_monotone :
  (forall s : double,
      (FraudAnalyzer.determine_risk_level s = CRITICAL <-> 0.8 <= s)
      /\ (FraudAnalyzer.determine_risk_level s = HIGH <-> 0.6 <= s < 0.8)
      /\ (FraudAnalyzer.determine_risk_level s = ELEVATED <-> 0.4 <= s < 0.6)
      /\ (FraudAnalyzer.determine_risk_level s = MODERATE <-> 0.2 <= s < 0.4)
      /\ (FraudAnalyzer.determine_risk_level s = LOW <-> s < 0.2))
  /\ (forall s1 s2 : double,
         s1 <= s2 ->
         (risk_rank (FraudAnalyzer.determine_risk_level s1)
          <= risk_rank (FraudAnalyzer.determine_risk_level s2))%nat).
Proof.
  split.
  - intro s. unfold FraudAnalyzer.determine_risk_level.
    dbl_cases; repeat split; intros;
      first [reflexivity | discriminate | lra | exfalso; lra].
  - intros s1 s2 Hle. unfold FraudAnalyzer.determine_risk_level.
    dbl_cases; cbn [risk_rank]; first [lia | exfalso; lra].
Qed.

Lemma determine_risk_level_exhaustive_monotone_witness :
  0.3 <= 0.7
  /\ Nat.le (risk_rank (FraudAnalyzer.determine_risk_level 0.3))
            (risk_rank (FraudAnalyzer.determine_risk_level 0.7)).
Proof.
  split.
  - lra.
  - apply (proj2 determine_risk_level_exhaustive_monotone). lra.
Defined.

(** ** The aggregator (analyzer.cpp, [analyze_financials]) *)

Section Aggregator.
Import FraudAnalyzer AnalysisResultUpdate.

(** The aggregator's accumulation is the specification's sum, with the
    flag-based digit-distribution contribution, for every combination
    of present and absent model results. *)
Lemma calculate_composite_score_formula (self : FraudAnalyzer.t) (r : AnalysisResult.t) :
  calculate_composite_score self r
  == composite_formula benford_risk_by_flag (weights_ self) r.
Proof.
  unfold calculate_composite_score, composite_formula.
  apply fmin_fmax_clamp.
  unfold weighted_contributions, red_flag_term, benford_risk_by_flag, sum_doubles.
  destruct (AnalysisResult.beneish r), (AnalysisResult.altman r),
    (AnalysisResult.piotroski r), (AnalysisResult.fraud_triangle r),
    (AnalysisResult.benford r); cbn [app fold_left];
    try destruct (BenfordResult.is_suspicious _); ring.
Qed.

(** C1 (as amended): for every analysis of at least two snapshots all
    five models ran, and the composite risk score is the sum of each
    model's weight times its risk contribution, plus the red-flag weight
    times min(1, red_flag_count/5), clamped to [0,1], where the
    digit-distribution model contributes 0.8 when its result is
    suspicious and 0.2 otherwise. *)
Theorem composite_score_of_analysis :
  forall (L : Libm) (self : FraudAnalyzer.t) (ts : string)
         (financials : list FinancialData) (company : CompanyInfo.t),
    (2 <= length financials)%nat ->
    all_models_present (fst (analyze_financials self ts financials company)) = true
    /\ AnalysisResult.composite_risk_score
         (fst (analyze_financials self ts financials company))
       == composite_formula benford_risk_by_flag (weights_ self)
            (fst (analyze_financials self ts financials company)).
Proof.
  intros L self ts financials company Hlen.
  unfold analyze_financials.
  destruct (length financials <? 2)%nat eqn:E.
  { apply Nat.ltb_lt in E. lia. }
  cbv zeta.
  generalize (BeneishModel.calculate (nth 0 financials default_FinancialData)
                (nth 1 financials default_FinancialData)).
  generalize (AltmanModel.calculate_ (nth 0 financials default_FinancialData)).
  generalize (PiotroskiModel.calculate (nth 0 financials default_FinancialData)
                (nth 1 financials default_FinancialData)).
  generalize (FraudTriangleModel.calculate financials).
  generalize (BenfordModel.calculate (map Finite (extract_all_values financials))).
  generalize (analyze_trends financials).
  intros tr bf ft p a b.
  cbn [fst]. split.
  - reflexivity.
  - cbn [set_texts set_overall_risk_level set_composite_risk_score
         AnalysisResult.composite_risk_score].
    etransitivity; [apply calculate_composite_score_formula|].
    reflexivity.
Qed.

Lemma composite_score_of_analysis_witness :
  (2 <= length [scenario_snapshot; prior_snapshot])%nat
  /\ AnalysisResult.composite_risk_score
       (fst (analyze_financials create example_timestamp
               [scenario_snapshot; prior_snapshot] CompanyInfo.default))
     == composite_formula benford_risk_by_flag (weights_ create)
          (fst (analyze_financials create example_timestamp
                  [scenario_snapshot; prior_snapshot] CompanyInfo.default)).
Proof.
  split.
  - cbn. lia.
  - apply (composite_score_of_analysis rational_libm create example_timestamp
             [scenario_snapshot; prior_snapshot] CompanyInfo.default).
    cbn. lia.
Defined.

(** C1 as stated fails: on the two example snapshots the aggregator's
    score is not the sum in which the digit-distribution model
    contributes clamp(MAD/0.02, 0, 1).  (The result is suspicious, so
    the aggregator adds 0.05 * 0.8; MAD exceeds 0.02, so the stated sum
    adds 0.05 * 1.) *)
Lemma composite_score_not_by_mad :
  ~ (AnalysisResult.composite_risk_score
       (fst (analyze_financials create example_timestamp
               [scenario_snapshot; prior_snapshot] CompanyInfo.default))
     == composite_formula benford_risk_by_mad (weights_ create)
          (fst (analyze_financials create example_timestamp
                  [scenario_snapshot; prior_snapshot] CompanyInfo.default))).
Proof.
  apply Qeq_bool_neq. vm_compute. reflexivity.
Qed.

(** C2 (as amended): if fewer than two snapshots are supplied to the
    aggregator, whatever their validity flags, the returned result has
    none of the five optional per-model results present and the
    insufficient-data condition is signalled to the caller through the
    analyzer's error slot; with two or more snapshots, whatever their
    figures, all five model results are present and no error is
    recorded: numeric edge cases raise nothing. *)
Theorem analyze_financials_insufficient_data :
  forall (L : Libm) (self : FraudAnalyzer.t) (ts : string)
         (financials : list FinancialData) (company : CompanyInfo.t),
    ((length financials < 2)%nat ->
     no_model_present (fst (analyze_financials self ts financials company)) = true
     /\ get_last_error (snd (analyze_financials self ts financials company))
        = "Insufficient financial data for analysis"
     /\ has_error (snd (analyze_financials self ts financials company)) = true)
    /\ ((2 <= length financials)%nat ->
        all_models_present (fst (analyze_financials self ts financials company)) = true
        /\ snd (analyze_financials self ts financials company) = self).
Proof.
  intros L self ts financials company.
  unfold analyze_financials.
  destruct (length financials <? 2)%nat eqn:E.
  - apply Nat.ltb_lt in E. split; [intros _ | intro; lia].
    cbn [fst snd]. repeat split.
  - apply Nat.ltb_ge in E. split; [intro; lia | intros _].
    cbn [fst snd]. split; reflexivity.
Qed.

Lemma analyze_financials_insufficient_data_witness :
  ((length [scenario_snapshot] < 2)%nat
   /\ no_model_present
        (fst (analyze_financials create example_timestamp
                [scenario_snapshot] CompanyInfo.default)) = true
   /\ has_error
        (snd (analyze_financials create example_timestamp
                [scenario_snapshot] CompanyInfo.default)) = true)
  /\ ((2 <= length [scenario_snapshot; prior_snapshot])%nat
      /\ all_models_present
           (fst (analyze_financials create example_timestamp
                   [scenario_snapshot; prior_snapshot] CompanyInfo.default)) = true).
Proof.
  split.
  - assert (Hlen : (length [scenario_snapshot] < 2)%nat) by (cbn; lia).
    split; [exact Hlen|].
    destruct (proj1 (analyze_financials_insufficient_data rational_libm create
                       example_timestamp [scenario_snapshot] CompanyInfo.default)
                    Hlen) as [H1 [_ H3]].
    split; [exact H1 | exact H3].
  - assert (Hlen : (2 <= length [scenario_snapshot; prior_snapshot])%nat) by (cbn; lia).
    split; [exact Hlen|].
    exact (proj1 (proj2 (analyze_financials_insufficient_data rational_libm create
                           example_timestamp [scenario_snapshot; prior_snapshot]
                           CompanyInfo.default) Hlen)).
Defined.

(** C2 as stated fails: two value-initialised snapshots, neither of them
    valid, are fewer than two valid snapshots, yet the aggregator runs
    all five models on them and records no error. *)
Lemma invalid_snapshots_are_analyzed :
  (valid_snapshots [default_FinancialData; default_FinancialData] < 2)%nat
  /\ all_models_present
       (fst (analyze_financials create example_timestamp
               [default_FinancialData; default_FinancialData]
               CompanyInfo.default)) = true
  /\ has_error
       (snd (analyze_financials create example_timestamp
               [default_FinancialData; default_FinancialData]
               CompanyInfo.default)) = false.
Proof.
  split; [cbn; lia|]. split; reflexivity.
Qed.
End Aggregator.

(** ** The digit-distribution model (benford.cpp) *)

Section Benford.
Import BenfordModel.

(** [is_valid_value] decides validity as the specification words it. *)
Lemma is_valid_value_spec (v : xdouble) :
  is_valid_value v = true <-> valid_value v.
Proof.
  unfold is_valid_value, valid_value, isfinite, abs_ge.
  destruct v as [q| | |]; cbn [andb].
  - rewrite Qleb_true. split.
    + intro H. exists q. split; [reflexivity | lra].
    + intros [q' [Heq H]]. injection Heq as ->. lra.
  - split; [discriminate | intros [q [Heq _]]; discriminate].
  - split; [discriminate | intros [q [Heq _]]; discriminate].
  - split; [discriminate | intros [q [Heq _]]; discriminate].
Qed.

Lemma not_valid_value (v : xdouble) :
  ~ valid_value v -> is_valid_value v = false.
Proof.
  intro H. destruct (is_valid_value v) eqn:E; [|reflexivity].
  exfalso. apply H, is_valid_value_spec, E.
Qed.

Lemma extract_first_digit_invalid (v : xdouble) :
  is_valid_value v = false -> extract_first_digit v = 0%Z.
Proof.
  intro H. unfold extract_first_digit. rewrite H. reflexivity.
Qed.

(** Values that fail the filter leave the counting loops where they
    were. *)
Lemma count_first_digits_skips (values : list xdouble) :
  (forall v, In v values -> is_valid_value v = false) ->
  forall st : list Z * Z,
    fold_left
      (fun '(counts, total) value =>
         let digit := extract_first_digit value in
         if (digit >=? 1)%Z && (digit <=? 9)%Z
         then (increment_at (Z.to_nat (digit - 1)) counts, (total + 1)%Z)
         else (counts, total))
      values st = st.
Proof.
  induction values as [|v values IH]; intros Hall st.
  - reflexivity.
  - cbn [fold_left]. destruct st as [counts total].
    rewrite (extract_first_digit_invalid v) by (apply Hall; left; reflexivity).
    cbn [Z.geb Z.compare andb].
    apply IH. intros w Hw. apply Hall. right. exact Hw.
Qed.

Lemma count_valid_skips (values : list xdouble) :
  (forall v, In v values -> is_valid_value v = false) ->
  forall n : nat,
    fold_left (fun n v => if is_valid_value v then S n else n) values n = n.
Proof.
  induction values as [|v values IH]; intros Hall n.
  - reflexivity.
  - cbn [fold_left]. rewrite (Hall v) by (left; reflexivity).
    apply IH. intros w Hw. apply Hall. right. exact Hw.
Qed.

(** The iteration budgets are never exhausted: the first loop leaves a
    value below 10, a value that is at least 1 stays at least 1, and
    the second loop then has nothing to do.  A valid value therefore
    yields a digit between 1 and 9. *)
Lemma divide_while_ge_10_below (fuel : nat) :
  forall v : double,
    v < inject_Z (2 ^ Z.of_nat fuel) -> divide_while_ge_10 fuel v < 10.
Proof.
  induction fuel as [|fuel IH]; intros v Hv.
  - cbn in Hv. unfold inject_Z in Hv. cbn [divide_while_ge_10]. lra.
  - cbn [divide_while_ge_10]. dbl_case; [|lra].
    apply IH.
    rewrite Nat2Z.inj_succ, Z.pow_succ_r in Hv by lia.
    rewrite inject_Z_mult in Hv.
    assert (Hpos : 0 < inject_Z (2 ^ Z.of_nat fuel)).
    { change 0 with (inject_Z 0). rewrite <- Zlt_Qlt. lia. }
    change (inject_Z 2) with 2 in Hv.
    assert (Hdiv : v / 10.0 == v * (1 # 10)) by field.
    rewrite Hdiv. lra.
Qed.

Lemma nonneg_below_numerator (v : double) : 0 <= v -> v <= inject_Z (Qnum v).
Proof.
  destruct v as [n d]. unfold Qle, inject_Z. cbn [Qnum Qden].
  intro H. nia.
Qed.

Lemma divide_while_ge_10_exits (v : double) :
  0 <= v -> divide_while_ge_10 (iteration_budget v) v < 10.
Proof.
  intro Hv. apply divide_while_ge_10_below.
  apply Qle_lt_trans with (inject_Z (Qnum v)); [apply nonneg_below_numerator, Hv|].
  rewrite <- Zlt_Qlt. unfold iteration_budget.
  set (n := Z.max 1 (Qnum v)).
  assert (Hn : (1 <= n)%Z) by (unfold n; lia).
  assert (Hlog : (0 <= Z.log2_up n)%Z) by apply Z.log2_up_nonneg.
  rewrite Z2Nat.id by lia.
  rewrite Z.pow_add_r by lia.
  pose proof (Z.log2_up_spec n) as Hspec.
  destruct (Z.eq_dec n 1) as [E1|E1].
  - rewrite E1. cbn. unfold n in E1. lia.
  - specialize (Hspec ltac:(lia)).
    assert (Qnum v <= n)%Z by (unfold n; lia).
    lia.
Qed.

Lemma divide_while_ge_10_ge_1 (fuel : nat) :
  forall v : double, 1 <= v -> 1 <= divide_while_ge_10 fuel v.
Proof.
  induction fuel as [|fuel IH]; intros v Hv; cbn [divide_while_ge_10].
  - exact Hv.
  - dbl_case; [|exact Hv].
    apply IH.
    assert (Hdiv : v / 10.0 == v * (1 # 10)) by field.
    rewrite Hdiv. lra.
Qed.

Lemma multiply_while_lt_1_idle (fuel : nat) (v : double) :
  1 <= v -> multiply_while_lt_1 fuel v = v.
Proof.
  intro Hv. destruct fuel as [|fuel]; cbn [multiply_while_lt_1].
  - reflexivity.
  - dbl_case; [exfalso; lra | reflexivity].
Qed.

Lemma trunc_to_int_floor (v : double) : 0 <= v -> trunc_to_int v = Qfloor v.
Proof.
  destruct v as [n d]. unfold Qle, trunc_to_int, Qfloor. cbn [Qnum Qden].
  intro H. apply Z.quot_div_nonneg; lia.
Qed.

Lemma extract_first_digit_valid (v : xdouble) :
  is_valid_value v = true -> (1 <= extract_first_digit v <= 9)%Z.
Proof.
  intro Hvalid. unfold extract_first_digit. rewrite Hvalid. cbn [negb].
  apply is_valid_value_spec in Hvalid. destruct Hvalid as [q [-> Hq]].
  set (a := Qabs q) in *.
  set (w := divide_while_ge_10 (iteration_budget a) a).
  assert (Hw1 : 1 <= w) by (apply divide_while_ge_10_ge_1, Hq).
  assert (Hw10 : w < 10) by (apply divide_while_ge_10_exits; lra).
  rewrite (multiply_while_lt_1_idle _ w Hw1).
  rewrite trunc_to_int_floor by lra.
  assert (H1 : (1 <= Qfloor w)%Z).
  { change 1%Z with (Qfloor 1). apply Qfloor_resp_le, Hw1. }
  assert (H9 : (Qfloor w <= 9)%Z).
  { assert (H : (Qfloor w < 10)%Z); [|lia].
    rewrite Zlt_Qlt. apply Qle_lt_trans with w; [apply Qfloor_le|].
    change (inject_Z 10) with 10. exact Hw10. }
  replace (Qfloor w >=? 1)%Z with true by (symmetry; apply Z.geb_le; lia).
  replace (Qfloor w <=? 9)%Z with true by (symmetry; apply Z.leb_le; lia).
  cbn [andb]. lia.
Qed.

(** C10: on an input vector that contains no valid value (a value is
    valid when it is finite and its absolute magnitude is at least 1),
    [calculate] returns chi-square 0, MAD 0, no anomaly, a result that
    is not suspicious, and an actual distribution of nine zeros. *)
Theorem benford_without_valid_values :
  forall (L : Libm) (values : list xdouble),
    (forall v, In v values -> ~ valid_value v) ->
    BenfordResult.chi_square (calculate values) == 0
    /\ BenfordResult.mad (calculate values) == 0
    /\ BenfordResult.anomalies (calculate values) = []
    /\ BenfordResult.is_suspicious (calculate values) = false
    /\ length (BenfordResult.actual_distribution (calculate values)) = 9%nat
    /\ Forall (fun x => x == 0) (BenfordResult.actual_distribution (calculate values)).
Proof.
  intros L values Hnone.
  assert (Hall : forall v, In v values -> is_valid_value v = false).
  { intros v Hv. apply not_valid_value, Hnone, Hv. }
  unfold calculate, count_valid, calculate_actual_distribution, count_first_digits.
  rewrite (count_valid_skips values Hall), (count_first_digits_skips values Hall).
  cbn. repeat split; try reflexivity.
  repeat constructor.
Qed.

Lemma benford_without_valid_values_witness :
  (forall v, In v [Finite 0.5; Finite 0; NaN; PosInf; NegInf; Finite (-0.999)] ->
             ~ valid_value v)
  /\ BenfordResult.is_suspicious
       (calculate [Finite 0.5; Finite 0; NaN; PosInf; NegInf; Finite (-0.999)]) = false.
Proof.
  assert (H : forall v,
             In v [Finite 0.5; Finite 0; NaN; PosInf; NegInf; Finite (-0.999)] ->
             ~ valid_value v).
  { intros v Hin Hv. apply is_valid_value_spec in Hv.
    cbn [In] in Hin.
    repeat (destruct Hin as [<- | Hin]; [discriminate Hv|]).
    exact Hin. }
  split; [exact H|].
  exact (proj1 (proj2 (proj2 (proj2
           (benford_without_valid_values rational_libm _ H))))).
Defined.
End Benford.

(** ** Safe division (beneish.cpp, altman.cpp) *)

Lemma beneish_safe_divide_rule (n d dflt : double) :
  safe_quotient dflt n d (BeneishModel.safe_divide n d dflt).
Proof.
  unfold safe_quotient, BeneishModel.safe_divide.
  dbl_case; split; intro H; first [reflexivity | exfalso; lra].
Qed.

Lemma altman_safe_divide_rule (n d dflt : double) :
  safe_quotient dflt n d (AltmanModel.safe_divide n d dflt).
Proof.
  unfold safe_quotient, AltmanModel.safe_divide.
  dbl_case; split; intro H; first [reflexivity | exfalso; lra].
Qed.

Lemma zprime_ratio_rule (n d : double) :
  positive_quotient n d (AltmanZPrimeModel.ratio n d).
Proof.
  unfold positive_quotient, AltmanZPrimeModel.ratio.
  dbl_case; split; intro H; first [reflexivity | exfalso; lra].
Qed.

(** C7: for every numerator [n] and denominator [d], the
    earnings-manipulation model's safe division returns [n/d] when
    |d| >= 1e-10 and the default it is given otherwise; the declared
    default is 1.0, it is the default of the quotient that defines each
    of the seven index components, and the total-accruals-to-assets term
    divides with default 0.0. *)
Theorem beneish_safe_division :
  (forall n d dflt : double,
      safe_quotient dflt n d (BeneishModel.safe_divide n d dflt))
  /\ BeneishModel.declared_default == 1
  /\ (forall current prior : FinancialData,
         safe_quotient 1.0
           (BeneishModel.safe_divide_ (accounts_receivable (balance_sheet current))
                                      (revenue (income_statement current)))
           (BeneishModel.safe_divide_ (accounts_receivable (balance_sheet prior))
                                      (revenue (income_statement prior)))
           (BeneishModel.calculate_dsri current prior)
         /\ safe_quotient 1.0
              (gross_margin (income_statement prior))
              (gross_margin (income_statement current))
              (BeneishModel.calculate_gmi current prior)
         /\ safe_quotient 1.0
              (1.0 - BeneishModel.safe_divide
                     (current_assets (balance_sheet current) + ppe (balance_sheet current))
                     (total_assets (balance_sheet current)) 0.0)
              (1.0 - BeneishModel.safe_divide
                     (current_assets (balance_sheet prior) + ppe (balance_sheet prior))
                     (total_assets (balance_sheet prior)) 0.0)
              (BeneishModel.calculate_aqi current prior)
         /\ safe_quotient 1.0
              (revenue (income_statement current))
              (revenue (income_statement prior))
              (BeneishModel.calculate_sgi current prior)
         /\ safe_quotient 1.0
              (BeneishModel.safe_divide_
                 (depreciation (income_statement prior))
                 (depreciation (income_statement prior) + ppe (balance_sheet prior)))
              (BeneishModel.safe_divide_
                 (depreciation (income_statement current))
                 (depreciation (income_statement current) + ppe (balance_sheet current)))
              (BeneishModel.calculate_depi current prior)
         /\ safe_quotient 1.0
              (BeneishModel.safe_divide_ (sga_expense (income_statement current))
                                         (revenue (income_statement current)))
              (BeneishModel.safe_divide_ (sga_expense (income_statement prior))
                                         (revenue (income_statement prior)))
              (BeneishModel.calculate_sgai current prior)
         /\ safe_quotient 1.0
              (BeneishModel.safe_divide_ (total_liabilities (balance_sheet current))
                                         (total_assets (balance_sheet current)))
              (BeneishModel.safe_divide_ (total_liabilities (balance_sheet prior))
                                         (total_assets (balance_sheet prior)))
              (BeneishModel.calculate_lvgi current prior)
         /\ safe_quotient 0.0
              (net_income (income_statement current)
               - operating_cash_flow (cash_flow current))
              (total_assets (balance_sheet current))
              (BeneishModel.calculate_tata current)).
Proof.
  split; [exact beneish_safe_divide_rule|].
  split; [reflexivity|].
  intros current prior.
  repeat (split; [apply beneish_safe_divide_rule|]).
  apply beneish_safe_divide_rule.
Qed.

Lemma beneish_safe_division_witness :
  (Qabs 0 < 1e-10 /\ BeneishModel.safe_divide 5 0 1.0 == 1.0)
  /\ (1e-10 <= Qabs 3 /\ BeneishModel.safe_divide 6 3 1.0 == 6 / 3)
  /\ (Qabs (revenue (income_statement default_FinancialData)) < 1e-10
      /\ BeneishModel.calculate_sgi scenario_snapshot default_FinancialData == 1.0)
  /\ (Qabs (total_assets (balance_sheet default_FinancialData)) < 1e-10
      /\ BeneishModel.calculate_tata default_FinancialData == 0.0).
Proof.
  assert (H0 : Qabs 0 < 1e-10) by reflexivity.
  assert (H3 : 1e-10 <= Qabs 3) by (apply Qle_bool_iff; reflexivity).
  split; [split; [exact H0|]|split; [split; [exact H3|]|split; [split; [exact H0|]|split; [exact H0|]]]].
  - exact (proj1 (proj1 beneish_safe_division 5 0 1.0) H0).
  - exact (proj2 (proj1 beneish_safe_division 6 3 1.0) H3).
  - pose proof (proj2 (proj2 beneish_safe_division) scenario_snapshot
                  default_FinancialData) as H.
    exact (proj1 (proj1 (proj2 (proj2 (proj2 H)))) H0).
  - pose proof (proj2 (proj2 beneish_safe_division) default_FinancialData
                  default_FinancialData) as H.
    exact (proj1 (proj2 (proj2 (proj2 (proj2 (proj2 (proj2 (proj2 H))))))) H0).
Defined.

(** ** The bankruptcy-risk model (altman.cpp) *)

(** C8 (as amended): Variant A resolves every ratio by the safe-division
    rule of the earnings-manipulation model with default 0.0 (0.0 when
    |d| < 1e-10, ordinary division for every other d, negative d
    included).  Variant B does not: each of its four ratios is 0.0
    whenever the denominator is not positive, and ordinary division for
    every positive denominator. *)
Theorem altman_ratio_rules :
  (forall n d : double, safe_quotient 0.0 n d (AltmanModel.safe_divide_ n d))
  /\ (forall (data : FinancialData) (market_cap : double),
         safe_quotient 0.0
           (current_assets (balance_sheet data) - current_liabilities (balance_sheet data))
           (total_assets (balance_sheet data))
           (AltmanResult.x1 (AltmanModel.calculate data market_cap))
         /\ safe_quotient 0.0
              (retained_earnings (balance_sheet data))
              (total_assets (balance_sheet data))
              (AltmanResult.x2 (AltmanModel.calculate data market_cap))
         /\ safe_quotient 0.0
              (operating_income (income_statement data))
              (total_assets (balance_sheet data))
              (AltmanResult.x3 (AltmanModel.calculate data market_cap))
         /\ safe_quotient 0.0
              (if market_cap >? 0 then market_cap else total_equity (balance_sheet data))
              (total_liabilities (balance_sheet data))
              (AltmanResult.x4 (AltmanModel.calculate data market_cap))
         /\ safe_quotient 0.0
              (revenue (income_statement data))
              (total_assets (balance_sheet data))
              (AltmanResult.x5 (AltmanModel.calculate data market_cap)))
  /\ (forall data : FinancialData,
         positive_quotient
           (current_assets (balance_sheet data) - current_liabilities (balance_sheet data))
           (total_assets (balance_sheet data))
           (AltmanResult.x1 (AltmanZPrimeModel.calculate data))
         /\ positive_quotient
              (retained_earnings (balance_sheet data))
              (total_assets (balance_sheet data))
              (AltmanResult.x2 (AltmanZPrimeModel.calculate data))
         /\ positive_quotient
              (operating_income (income_statement data))
              (total_assets (balance_sheet data))
              (AltmanResult.x3 (AltmanZPrimeModel.calculate data))
         /\ positive_quotient
              (total_equity (balance_sheet data))
              (total_liabilities (balance_sheet data))
              (AltmanResult.x4 (AltmanZPrimeModel.calculate data))).
Proof.
  split; [intros n d; apply altman_safe_divide_rule|].
  split.
  - intros data market_cap.
    repeat (split; [apply altman_safe_divide_rule|]).
    apply altman_safe_divide_rule.
  - intro data.
    repeat (split; [apply zprime_ratio_rule|]).
    apply zprime_ratio_rule.
Qed.

Lemma altman_ratio_rules_witness :
  (1e-10 <= Qabs (-4) /\ AltmanModel.safe_divide_ 2 (-4) == 2 / -4)
  /\ (total_assets (balance_sheet negative_assets_snapshot) <= 0
      /\ AltmanResult.x1 (AltmanZPrimeModel.calculate negative_assets_snapshot) == 0)
  /\ (0 < total_assets (balance_sheet scenario_snapshot)
      /\ AltmanResult.x1 (AltmanZPrimeModel.calculate scenario_snapshot)
         == (current_assets (balance_sheet scenario_snapshot)
             - current_liabilities (balance_sheet scenario_snapshot))
            / total_assets (balance_sheet scenario_snapshot)).
Proof.
  assert (H4 : 1e-10 <= Qabs (-4)) by (apply Qle_bool_iff; reflexivity).
  assert (Hneg : total_assets (balance_sheet negative_assets_snapshot) <= 0)
    by (apply Qle_bool_iff; reflexivity).
  assert (Hpos : 0 < total_assets (balance_sheet scenario_snapshot)) by reflexivity.
  split; [split; [exact H4|] | split; [split; [exact Hneg|] | split; [exact Hpos|]]].
  - exact (proj2 (proj1 altman_ratio_rules 2 (-4)) H4).
  - exact (proj1 (proj1 (proj2 (proj2 altman_ratio_rules) negative_assets_snapshot)) Hneg).
  - exact (proj2 (proj1 (proj2 (proj2 altman_ratio_rules) scenario_snapshot)) Hpos).
Defined.

(** C8 as stated fails on Variant B: with total assets -1000 and working
    capital 200 its first ratio is 0, where the safe-division rule gives
    the ordinary quotient 200 / -1000. *)
Lemma zprime_ratio_not_safe_division :
  AltmanResult.x1 (AltmanZPrimeModel.calculate negative_assets_snapshot) == 0
  /\ ~ safe_quotient 0.0
         (current_assets (balance_sheet negative_assets_snapshot)
          - current_liabilities (balance_sheet negative_assets_snapshot))
         (total_assets (balance_sheet negative_assets_snapshot))
         (AltmanResult.x1 (AltmanZPrimeModel.calculate negative_assets_snapshot)).
Proof.
  split; [reflexivity|].
  intros [_ H].
  assert (Hd : 1e-10 <= Qabs (total_assets (balance_sheet negative_assets_snapshot)))
    by (apply Qle_bool_iff; reflexivity).
  specialize (H Hd). vm_compute in H. discriminate H.
Qed.

(** C9: for the scenario snapshot (total assets 1000, current assets 600,
    current liabilities 400, retained earnings 200, operating income 150,
    total equity 500, total liabilities 500, revenue 900) and market
    capitalisation 0, Variant A computes X1 = 0.2, X2 = 0.2, X3 = 0.15,
    X4 = 1.0 (book equity over total liabilities, the market
    capitalisation not being positive), X5 = 0.9, the Z-score 2.515 and
    the zone "Gray". *)
Theorem altman_scenario :
  AltmanResult.x1 (AltmanModel.calculate scenario_snapshot 0) == 0.2
  /\ AltmanResult.x2 (AltmanModel.calculate scenario_snapshot 0) == 0.2
  /\ AltmanResult.x3 (AltmanModel.calculate scenario_snapshot 0) == 0.15
  /\ AltmanResult.x4 (AltmanModel.calculate scenario_snapshot 0) == 1.0
  /\ AltmanModel.calculate_x4 scenario_snapshot 0
     == total_equity (balance_sheet scenario_snapshot)
        / total_liabilities (balance_sheet scenario_snapshot)
  /\ AltmanResult.x5 (AltmanModel.calculate scenario_snapshot 0) == 0.9
  /\ AltmanResult.z_score (AltmanModel.calculate scenario_snapshot 0) == 2.515
  /\ AltmanResult.zone (AltmanModel.calculate scenario_snapshot 0) = "Gray".
Proof.
  repeat split.
Qed.

(** ** The risk-factor heuristic model (fraud_triangle.cpp) *)

Section FraudTriangle.
Import FraudTriangleModel.

(** The per-period test of [check_aggressive_accounting]: the guard on
    a positive net income follows from the other two conditions. *)
Lemma income_outruns_cash_flow_spec (f : FinancialData) :
  income_outruns_cash_flow f = true
  <-> 0 < operating_cash_flow (cash_flow f)
      /\ operating_cash_flow (cash_flow f) * 1.5 < net_income (income_statement f).
Proof.
  unfold income_outruns_cash_flow.
  rewrite !andb_true_iff, !Qltb_true.
  split.
  - intros [[_ H2] H3]. split; assumption.
  - intros [H2 H3]. repeat split; try assumption. lra.
Qed.

Lemma check_aggressive_accounting_spec (financials : list FinancialData) :
  check_aggressive_accounting financials = true
  <-> exists f, In f financials
                /\ 0 < operating_cash_flow (cash_flow f)
                /\ operating_cash_flow (cash_flow f) * 1.5
                   < net_income (income_statement f).
Proof.
  unfold check_aggressive_accounting.
  destruct financials as [|f0 rest].
  - split; [discriminate | intros [f [[] _]]].
  - rewrite existsb_exists.
    split; intros [f [Hin H]]; exists f; (split; [exact Hin|]);
      apply income_outruns_cash_flow_spec; exact H.
Qed.

(** C6 (as amended): the aggressive-accounting indicator of the
    rationalization category triggers if and only if the sequence has a
    period whose operating cash flow is positive and whose net income
    exceeds 1.5 times that cash flow. *)
Theorem aggressive_accounting_triggers :
  forall financials : list FinancialData,
    (In aggressive_accounting_indicator (detect_rationalization_indicators financials)
     <-> check_aggressive_accounting financials = true)
    /\ (check_aggressive_accounting financials = true
        <-> exists f, In f financials
                      /\ 0 < operating_cash_flow (cash_flow f)
                      /\ operating_cash_flow (cash_flow f) * 1.5
                         < net_income (income_statement f)).
Proof.
  intro financials. split; [|apply check_aggressive_accounting_spec].
  unfold detect_rationalization_indicators, aggressive_accounting_indicator.
  rewrite in_app_iff.
  destruct (check_aggressive_accounting financials).
  - split; [reflexivity | intros _; left; left; reflexivity].
  - split; [|discriminate].
    intros [[] | H].
    destruct (check_boundary_cases financials); cbn [In] in H.
    + destruct H as [H | []]. discriminate H.
    + destruct H.
Qed.

Lemma aggressive_accounting_triggers_witness :
  (exists f, In f [prior_snapshot; snapshot_with 1000 100 50 default_BalanceSheet]
             /\ 0 < operating_cash_flow (cash_flow f)
             /\ operating_cash_flow (cash_flow f) * 1.5
                < net_income (income_statement f))
  /\ In aggressive_accounting_indicator
        (detect_rationalization_indicators
           [prior_snapshot; snapshot_with 1000 100 50 default_BalanceSheet]).
Proof.
  assert (H : exists f,
             In f [prior_snapshot; snapshot_with 1000 100 50 default_BalanceSheet]
             /\ 0 < operating_cash_flow (cash_flow f)
             /\ operating_cash_flow (cash_flow f) * 1.5
                < net_income (income_statement f)).
  { exists (snapshot_with 1000 100 50 default_BalanceSheet).
    split; [right; left; reflexivity|]. split; reflexivity. }
  split; [exact H|].
  apply (proj1 (aggressive_accounting_triggers _)).
  apply (proj2 (aggressive_accounting_triggers _)).
  exact H.
Defined.

(** C6 as stated fails: a period with net income 100 and operating cash
    flow -50 has net income above 1.5 times its operating cash flow, and
    the indicator does not trigger. *)
Lemma aggressive_accounting_needs_positive_cash_flow :
  (exists f, In f [cash_burning_period]
             /\ operating_cash_flow (cash_flow f) * 1.5
                < net_income (income_statement f))
  /\ check_aggressive_accounting [cash_burning_period] = false
  /\ ~ In aggressive_accounting_indicator
         (detect_rationalization_indicators [cash_burning_period]).
Proof.
  split; [|split].
  - exists cash_burning_period. split; [left; reflexivity | reflexivity].
  - reflexivity.
  - cbn. intros [].
Qed.

(** A counting loop over indices adds the number of indices that pass
    its test. *)
Lemma fold_count (p : nat -> bool) (l : list nat) (acc : Z) :
  fold_left (fun n i => if p i then (n + 1)%Z else n) l acc
  = (acc + Z.of_nat (length (filter p l)))%Z.
Proof.
  revert acc. induction l as [|i l IH]; intro acc; cbn [fold_left filter].
  - cbn. lia.
  - rewrite IH. destruct (p i); cbn [length]; lia.
Qed.

(** What the counter of [check_declining_revenue] counts: the
    comparisons in which the period at index [i] has lower revenue than
    the period at index [i-1]. *)
Lemma declining_revenue_periods_counts (financials : list FinancialData) :
  declining_revenue_periods financials
  = Z.of_nat
      (length
         (filter
            (fun i =>
               revenue (income_statement (at_ financials i))
               <? revenue (income_statement (at_ financials (i - 1))))
            (indices_from_1 financials))).
Proof.
  unfold declining_revenue_periods.
  rewrite (fold_count
             (fun i =>
                revenue (income_statement (at_ financials i))
                <? revenue (income_statement (at_ financials (i - 1))))).
  lia.
Qed.

(** C5, evaluated on the code.  Most-recent first, revenue 100 after 200
    is a decrease in the only comparison, and [check_declining_revenue]
    does not trigger; revenue 200 after 100 is an increase, and it
    triggers: the loop compares the older period (index [i]) against the
    newer one (index [i-1]). *)
Theorem check_declining_revenue_reversed :
  (majority_shows_decrease (revenues [100; 200]) = true
   /\ check_declining_revenue (revenues [100; 200]) = false)
  /\ (majority_shows_decrease (revenues [200; 100]) = false
      /\ check_declining_revenue (revenues [200; 100]) = true).
Proof.
  repeat split.
Qed.

(** The threshold is [size / 2] of the [size - 1] comparisons: with
    three periods one counted comparison out of two is enough. *)
Lemma check_declining_revenue_half_suffices :
  decreasing_comparisons (revenues [100; 200; 100]) = 1%nat
  /\ declining_revenue_periods (revenues [100; 200; 100]) = 1%Z
  /\ majority_shows_decrease (revenues [100; 200; 100]) = false
  /\ check_declining_revenue (revenues [100; 200; 100]) = true.
Proof.
  repeat split.
Qed.
End FraudTriangle.

(** * Further properties of the code *)

(** ** Weights (types.h, [RiskWeights::normalize]) *)



(** X2: when the six weights do not have a positive sum, [normalize]
    leaves them as they are (no division takes place). *)
Theorem normalize_keeps_degenerate_weights :
  forall w : RiskWeights.t,
    weights_total w <= 0 -> RiskWeights.normalize w = w.
Proof.
  intros w H. unfold RiskWeights.normalize.
  change (RiskWeights.beneish w + RiskWeights.altman w + RiskWeights.piotroski w
          + RiskWeights.fraud_triangle w + RiskWeights.benford w
          + RiskWeights.red_flags w) with (weights_total w).
  apply Qltb_false in H. rewrite H. reflexivity.
Qed.

Lemma normalize_keeps_degenerate_weights_witness :
  weights_total
    {| RiskWeights.beneish := 0; RiskWeights.altman := 0;
       RiskWeights.piotroski := 0; RiskWeights.fraud_triangle := 0;
       RiskWeights.benford := 0; RiskWeights.red_flags := 0 |} <= 0
  /\ RiskWeights.normalize
       {| RiskWeights.beneish := 0; RiskWeights.altman := 0;
          RiskWeights.piotroski := 0; RiskWeights.fraud_triangle := 0;
          RiskWeights.benford := 0; RiskWeights.red_flags := 0 |}
     = {| RiskWeights.beneish := 0; RiskWeights.altman := 0;
          RiskWeights.piotroski := 0; RiskWeights.fraud_triangle := 0;
          RiskWeights.benford := 0; RiskWeights.red_flags := 0 |}.
Proof.
  assert (H : weights_total
                {| RiskWeights.beneish := 0; RiskWeights.altman := 0;
                   RiskWeights.piotroski := 0; RiskWeights.fraud_triangle := 0;
                   RiskWeights.benford := 0; RiskWeights.red_flags := 0 |} <= 0)
    by (apply Qle_bool_iff; reflexivity).
  split; [exact H|].
  exact (normalize_keeps_degenerate_weights _ H).
Defined.

(** ** Risk contributions of the models *)



(** ** The bankruptcy-risk model: probabilities and zones (altman.cpp) *)

(** X4: the bankruptcy probability looked up from the Z-score never
    increases when the score increases, and always lies between 0.01 and
    0.95. *)
Theorem score_to_probability_antitone :
  forall z1 z2 : double,
    z1 <= z2 ->
    AltmanModel.score_to_probability z2 <= AltmanModel.score_to_probability z1
    /\ 0.01 <= AltmanModel.score_to_probability z1 <= 0.95.
Proof.
  intros z1 z2 Hle. unfold AltmanModel.score_to_probability.
  dbl_cases; split; lra.
Qed.

Lemma score_to_probability_antitone_witness :
  1.5 <= 2.8
  /\ AltmanModel.score_to_probability 2.8 <= AltmanModel.score_to_probability 1.5.
Proof.
  assert (H : 1.5 <= 2.8) by (apply Qle_bool_iff; reflexivity).
  split; [exact H|].
  exact (proj1 (score_to_probability_antitone 1.5 2.8 H)).
Defined.

(** X5: zones and probabilities of Variant A agree: a score above 2.99
    is "Safe" with probability at most 0.05, a score in (1.81, 2.99] is
    "Gray" with probability between 0.05 and 0.35, and a score of at most
    1.81 is "Distress" with probability at least 0.35. *)
Theorem altman_zone_probability :
  forall z : double,
    (2.99 < z ->
     AltmanModel.get_zone z = "Safe" /\ AltmanModel.score_to_probability z <= 0.05)
    /\ (1.81 < z <= 2.99 ->
        AltmanModel.get_zone z = "Gray"
        /\ 0.05 <= AltmanModel.score_to_probability z <= 0.35)
    /\ (z <= 1.81 ->
        AltmanModel.get_zone z = "Distress"
        /\ 0.35 <= AltmanModel.score_to_probability z).
Proof.
  intro z.
  unfold AltmanModel.get_zone, AltmanModel.score_to_probability,
    AltmanModel.SAFE_THRESHOLD, AltmanModel.DISTRESS_THRESHOLD.
  repeat split; dbl_cases; first [reflexivity | lra | exfalso; lra].
Qed.

Lemma altman_zone_probability_witness :
  (2.99 < 3.5 /\ AltmanModel.get_zone 3.5 = "Safe")
  /\ (1.81 < 2.515 <= 2.99 /\ AltmanModel.get_zone 2.515 = "Gray")
  /\ (1.81 <= 1.81 /\ AltmanModel.get_zone 1.81 = "Distress").
Proof.
  assert (H1 : 2.99 < 3.5) by reflexivity.
  assert (H2 : 1.81 < 2.515 <= 2.99)
    by (split; [reflexivity | apply Qle_bool_iff; reflexivity]).
  assert (H3 : 1.81 <= 1.81) by (apply Qle_bool_iff; reflexivity).
  split; [split; [exact H1|] | split; [split; [exact H2|] | split; [exact H3|]]].
  - exact (proj1 (proj1 (altman_zone_probability 3.5) H1)).
  - exact (proj1 (proj1 (proj2 (altman_zone_probability 2.515)) H2)).
  - exact (proj1 (proj2 (proj2 (altman_zone_probability 1.81)) H3)).
Defined.

(** X6: on a snapshot whose total assets and total liabilities are at
    least 1e-10, and without a market capitalisation, the four ratios of
    Variant B are those of Variant A ("same as Z-Score but X4 uses book
    value"); Variant B's fifth ratio is 0. *)
Theorem zprime_ratios_agree_with_altman :
  forall data : FinancialData,
    1e-10 <= total_assets (balance_sheet data) ->
    1e-10 <= total_liabilities (balance_sheet data) ->
    AltmanResult.x1 (AltmanZPrimeModel.calculate data)
    == AltmanResult.x1 (AltmanModel.calculate data 0)
    /\ AltmanResult.x2 (AltmanZPrimeModel.calculate data)
       == AltmanResult.x2 (AltmanModel.calculate data 0)
    /\ AltmanResult.x3 (AltmanZPrimeModel.calculate data)
       == AltmanResult.x3 (AltmanModel.calculate data 0)
    /\ AltmanResult.x4 (AltmanZPrimeModel.calculate data)
       == AltmanResult.x4 (AltmanModel.calculate data 0)
    /\ AltmanResult.x5 (AltmanZPrimeModel.calculate data) == 0.
Proof.
  intros data Hta Htl.
  assert (Hrule : forall n d, 1e-10 <= d ->
                    AltmanZPrimeModel.ratio n d == AltmanModel.safe_divide_ n d).
  { intros n d Hd.
    assert (Hpos : 0 < d).
    { apply Qlt_le_trans with 1e-10; [reflexivity | exact Hd]. }
    destruct (zprime_ratio_rule n d) as [_ Hz].
    destruct (altman_safe_divide_rule n d 0.0) as [_ Ha].
    rewrite (Hz Hpos).
    symmetry. apply Ha. rewrite Qabs_pos by lra. exact Hd. }
  cbn [AltmanZPrimeModel.calculate AltmanModel.calculate AltmanResult.x1
       AltmanResult.x2 AltmanResult.x3 AltmanResult.x4 AltmanResult.x5].
  unfold AltmanModel.calculate_x1, AltmanModel.calculate_x2,
    AltmanModel.calculate_x3, AltmanModel.calculate_x4.
  replace (0 >? 0) with false by reflexivity.
  repeat (split; [apply Hrule; assumption|]).
  reflexivity.
Qed.

Lemma zprime_ratios_agree_with_altman_witness :
  (1e-10 <= total_assets (balance_sheet scenario_snapshot)
   /\ 1e-10 <= total_liabilities (balance_sheet scenario_snapshot))
  /\ AltmanResult.x4 (AltmanZPrimeModel.calculate scenario_snapshot)
     == AltmanResult.x4 (AltmanModel.calculate scenario_snapshot 0).
Proof.
  assert (H1 : 1e-10 <= total_assets (balance_sheet scenario_snapshot))
    by (apply Qle_bool_iff; reflexivity).
  assert (H2 : 1e-10 <= total_liabilities (balance_sheet scenario_snapshot))
    by (apply Qle_bool_iff; reflexivity).
  split; [split; assumption|].
  exact (proj1 (proj2 (proj2 (proj2
           (zprime_ratios_agree_with_altman scenario_snapshot H1 H2))))).
Defined.

(** ** The earnings-manipulation model on its own outputs (beneish.cpp) *)

Lemma Qltb_irrefl (x : double) : (x <? x) = false.
Proof. apply Qltb_false. lra. Qed.

Lemma Qleb_refl (x : double) : (x <=? x) = true.
Proof. apply Qleb_true. lra. Qed.



(** X8: in every result of the model the "likely manipulator" verdict
    holds exactly when the zone is "High Risk" or "Elevated Risk", and is
    excluded by "Moderate Risk" and "Low Risk". *)
Theorem beneish_manipulator_zone :
  forall (L : Libm) (current prior : FinancialData),
    (BeneishResult.likely_manipulator (BeneishModel.calculate current prior) = true
     <-> BeneishResult.zone (BeneishModel.calculate current prior) = "High Risk"
         \/ BeneishResult.zone (BeneishModel.calculate current prior) = "Elevated Risk")
    /\ (BeneishResult.likely_manipulator (BeneishModel.calculate current prior) = false
        <-> BeneishResult.zone (BeneishModel.calculate current prior) = "Moderate Risk"
            \/ BeneishResult.zone (BeneishModel.calculate current prior) = "Low Risk").
Proof.
  intros L current prior.
  cbn [BeneishModel.calculate BeneishResult.likely_manipulator BeneishResult.zone].
  generalize (BeneishModel.INTERCEPT
              + BeneishModel.COEF_DSRI * BeneishModel.calculate_dsri current prior
              + BeneishModel.COEF_GMI * BeneishModel.calculate_gmi current prior
              + BeneishModel.COEF_AQI * BeneishModel.calculate_aqi current prior
              + BeneishModel.COEF_SGI * BeneishModel.calculate_sgi current prior
              + BeneishModel.COEF_DEPI * BeneishModel.calculate_depi current prior
              + BeneishModel.COEF_SGAI * BeneishModel.calculate_sgai current prior
              + BeneishModel.COEF_TATA * BeneishModel.calculate_tata current
              + BeneishModel.COEF_LVGI * BeneishModel.calculate_lvgi current prior).
  intro m.
  unfold BeneishModel.is_likely_manipulator, BeneishModel.get_zone,
    BeneishModel.THRESHOLD.
  dbl_cases; split; split; intro H;
    first [reflexivity | discriminate H | exfalso; lra
          | left; reflexivity | right; reflexivity
          | destruct H as [H | H]; discriminate H].
Qed.

(** ** The financial-strength model (piotroski.cpp) *)

(** X9: the F-score of every result lies between 0 and 9, the risk
    contribution is exactly 1 - F/9 (the clamp never binds), and the
    interpretation is "Strong" from 7 up, "Weak" up to 3 and "Moderate"
    in between. *)
Theorem piotroski_score_range :
  forall current prior : FinancialData,
    (0 <= PiotroskiResult.f_score (PiotroskiModel.calculate current prior) <= 9)%Z
    /\ PiotroskiResult.risk_score (PiotroskiModel.calculate current prior)
       == 1 - inject_Z (PiotroskiResult.f_score (PiotroskiModel.calculate current prior)) / 9
    /\ (PiotroskiResult.interpretation (PiotroskiModel.calculate current prior) = "Strong"
        <-> (7 <= PiotroskiResult.f_score (PiotroskiModel.calculate current prior))%Z)
    /\ (PiotroskiResult.interpretation (PiotroskiModel.calculate current prior) = "Weak"
        <-> (PiotroskiResult.f_score (PiotroskiModel.calculate current prior) <= 3)%Z)
    /\ (PiotroskiResult.interpretation (PiotroskiModel.calculate current prior) = "Moderate"
        <-> (4 <= PiotroskiResult.f_score (PiotroskiModel.calculate current prior) <= 6)%Z).
Proof.
  intros current prior.
  cbn [PiotroskiModel.calculate PiotroskiResult.f_score PiotroskiResult.risk_score
       PiotroskiResult.interpretation].
  generalize (PiotroskiModel.int_to_bool (PiotroskiModel.check_roa_positive current)).
  generalize (PiotroskiModel.int_to_bool (PiotroskiModel.check_cfo_positive current)).
  generalize (PiotroskiModel.int_to_bool (PiotroskiModel.check_roa_increasing current prior)).
  generalize (PiotroskiModel.int_to_bool (PiotroskiModel.check_quality_of_earnings current)).
  generalize (PiotroskiModel.int_to_bool
                (PiotroskiModel.check_leverage_decreasing current prior)).
  generalize (PiotroskiModel.int_to_bool
                (PiotroskiModel.check_liquidity_increasing current prior)).
  generalize (PiotroskiModel.int_to_bool (PiotroskiModel.check_no_dilution current prior)).
  generalize (PiotroskiModel.int_to_bool
                (PiotroskiModel.check_gross_margin_increasing current prior)).
  generalize (PiotroskiModel.int_to_bool
                (PiotroskiModel.check_asset_turnover_increasing current prior)).
  intros b9 b8 b7 b6 b5 b4 b3 b2 b1.
  destruct b1, b2, b3, b4, b5, b6, b7, b8, b9; vm_compute;
    repeat split; intros;
      first [reflexivity | discriminate | congruence | exfalso; intuition congruence].
Qed.

(** X10: comparing a snapshot with itself, none of the five
    year-over-year improvements is credited and the no-dilution point
    always is, so the F-score is between 1 and 4 and the interpretation
    is never "Strong". *)
Theorem piotroski_unchanged_company :
  forall f : FinancialData,
    PiotroskiResult.roa_increasing (PiotroskiModel.calculate f f) = false
    /\ PiotroskiResult.leverage_decreasing (PiotroskiModel.calculate f f) = false
    /\ PiotroskiResult.current_ratio_increasing (PiotroskiModel.calculate f f) = false
    /\ PiotroskiResult.gross_margin_increasing (PiotroskiModel.calculate f f) = false
    /\ PiotroskiResult.asset_turnover_increasing (PiotroskiModel.calculate f f) = false
    /\ PiotroskiResult.no_dilution (PiotroskiModel.calculate f f) = true
    /\ (1 <= PiotroskiResult.f_score (PiotroskiModel.calculate f f) <= 4)%Z
    /\ PiotroskiResult.interpretation (PiotroskiModel.calculate f f) <> "Strong".
Proof.
  intro f.
  cbn [PiotroskiModel.calculate PiotroskiResult.f_score PiotroskiResult.interpretation
       PiotroskiResult.roa_increasing PiotroskiResult.leverage_decreasing
       PiotroskiResult.current_ratio_increasing PiotroskiResult.gross_margin_increasing
       PiotroskiResult.asset_turnover_increasing PiotroskiResult.no_dilution].
  unfold PiotroskiModel.check_roa_increasing, PiotroskiModel.check_leverage_decreasing,
    PiotroskiModel.check_liquidity_increasing, PiotroskiModel.check_no_dilution,
    PiotroskiModel.check_gross_margin_increasing,
    PiotroskiModel.check_asset_turnover_increasing.
  rewrite !Qltb_irrefl, Qleb_refl.
  generalize (PiotroskiModel.int_to_bool (PiotroskiModel.check_roa_positive f)).
  generalize (PiotroskiModel.int_to_bool (PiotroskiModel.check_cfo_positive f)).
  generalize (PiotroskiModel.int_to_bool (PiotroskiModel.check_quality_of_earnings f)).
  intros b3 b2 b1.
  destruct b1, b2, b3; vm_compute;
    repeat split; intros;
      first [reflexivity | discriminate | congruence | exfalso; intuition congruence].
Qed.

(** ** The risk-factor heuristic model on short inputs (fraud_triangle.cpp) *)

Section FraudTriangleEdges.
Import FraudTriangleModel.

(** X11: each category score is exactly the fraction of its indicators
    that triggered: pressure = count/5, opportunity = count/3,
    rationalization = count/2, with at most 5, 3 and 2 indicators (the
    clamp of [normalize_score] never binds). *)
Theorem category_scores_are_fractions :
  forall financials : list FinancialData,
    (length (detect_pressure_indicators financials) <= 5)%nat
    /\ calculate_pressure_score financials
       == inject_Z (Z.of_nat (length (detect_pressure_indicators financials))) / 5
    /\ (length (detect_opportunity_indicators financials) <= 3)%nat
    /\ calculate_opportunity_score financials
       == inject_Z (Z.of_nat (length (detect_opportunity_indicators financials))) / 3
    /\ (length (detect_rationalization_indicators financials) <= 2)%nat
    /\ calculate_rationalization_score financials
       == inject_Z (Z.of_nat (length (detect_rationalization_indicators financials))) / 2.
Proof.
  intro financials.
  assert (Hp : (length (detect_pressure_indicators financials) <= 5)%nat
               /\ calculate_pressure_score financials
                  == inject_Z (Z.of_nat (length (detect_pressure_indicators financials))) / 5).
  { unfold calculate_pressure_score, detect_pressure_indicators.
    destruct financials as [|f rest]; [split; [cbn; lia | reflexivity]|].
    destruct (check_declining_revenue (f :: rest)),
      (check_declining_margins (f :: rest)),
      (check_high_leverage (at_ (f :: rest) 0)),
      (check_negative_cash_flow (at_ (f :: rest) 0)),
      (check_earnings_miss_pattern (f :: rest)); cbn [length app];
      split; first [lia | reflexivity]. }
  assert (Ho : (length (detect_opportunity_indicators financials) <= 3)%nat
               /\ calculate_opportunity_score financials
                  == inject_Z (Z.of_nat (length (detect_opportunity_indicators financials))) / 3).
  { unfold calculate_opportunity_score, detect_opportunity_indicators.
    destruct (check_complex_structure financials),
      (check_unusual_transactions financials),
      (check_estimate_changes financials); cbn [length app];
      split; first [lia | reflexivity]. }
  assert (Hr : (length (detect_rationalization_indicators financials) <= 2)%nat
               /\ calculate_rationalization_score financials
                  == inject_Z (Z.of_nat
                                 (length (detect_rationalization_indicators financials))) / 2).
  { unfold calculate_rationalization_score, detect_rationalization_indicators.
    destruct (check_aggressive_accounting financials),
      (check_boundary_cases financials); cbn [length app];
      split; first [lia | reflexivity]. }
  tauto.
Qed.

Lemma short_sequence_checks (financials : list FinancialData) :
  (length financials < 2)%nat ->
  check_declining_revenue financials = false
  /\ check_declining_margins financials = false
  /\ check_earnings_miss_pattern financials = false
  /\ check_unusual_transactions financials = false
  /\ check_estimate_changes financials = false
  /\ check_boundary_cases financials = false.
Proof.
  intro Hlen.
  destruct financials as [|f [|g rest]]; [| |cbn in Hlen; lia].
  - repeat split.
  - unfold check_declining_revenue, check_declining_margins,
      check_earnings_miss_pattern, check_unusual_transactions,
      check_estimate_changes, check_boundary_cases.
    cbn [length Nat.ltb Nat.leb fold_left].
    repeat split.
    destruct ((net_margin (income_statement f) >? 0)
              && (net_margin (income_statement f) <? 0.01)); reflexivity.
Qed.

(** X12: on fewer than two snapshots none of the multi-period indicators
    can trigger (declining revenue, declining margins, near-miss pattern,
    unusual transactions, estimate changes, boundary earnings), so the
    overall risk is at most 61/150 and the model never reports the level
    HIGH; on the empty sequence every score is 0 and the level is LOW. *)
Theorem fraud_triangle_short_sequence :
  forall financials : list FinancialData,
    (length financials < 2)%nat ->
    (check_declining_revenue financials = false
     /\ check_declining_margins financials = false
     /\ check_earnings_miss_pattern financials = false
     /\ check_unusual_transactions financials = false
     /\ check_estimate_changes financials = false
     /\ check_boundary_cases financials = false)
    /\ FraudTriangleResult.overall_risk (calculate financials) <= 61 # 150
    /\ FraudTriangleResult.risk_level (calculate financials) <> HIGH
    /\ (financials = [] ->
        FraudTriangleResult.overall_risk (calculate financials) == 0
        /\ FraudTriangleResult.risk_level (calculate financials) = LOW).
Proof.
  intros financials Hlen.
  pose proof (short_sequence_checks financials Hlen) as Hchecks.
  split; [exact Hchecks|].
  destruct Hchecks as [H1 [H2 [H3 [H4 [H5 H6]]]]].
  cbn [calculate FraudTriangleResult.overall_risk FraudTriangleResult.risk_level].
  unfold calculate_pressure_score, calculate_opportunity_score,
    calculate_rationalization_score, detect_pressure_indicators,
    detect_opportunity_indicators, detect_rationalization_indicators.
  rewrite H1, H2, H3, H4, H5, H6.
  destruct financials as [|f rest].
  - repeat split; intros; first [discriminate | reflexivity | apply Qle_bool_iff; reflexivity].
  - destruct (check_high_leverage (at_ (f :: rest) 0)),
      (check_negative_cash_flow (at_ (f :: rest) 0)),
      (check_complex_structure (f :: rest)),
      (check_aggressive_accounting (f :: rest));
      repeat split; intros;
        first [discriminate | apply Qle_bool_iff; reflexivity].
Qed.

Lemma fraud_triangle_short_sequence_witness :
  (length [scenario_snapshot] < 2)%nat
  /\ FraudTriangleResult.risk_level (calculate [scenario_snapshot]) <> HIGH.
Proof.
  assert (H : (length [scenario_snapshot] < 2)%nat) by (cbn; lia).
  split; [exact H|].
  exact (proj1 (proj2 (proj2 (fraud_triangle_short_sequence _ H)))).
Defined.

(** X13: the model's own risk-level mapping is not monotone in the order
    of the [RiskLevel] enum: an overall risk in [0.2, 0.4) is ELEVATED
    while a higher one in [0.4, 0.7) is MODERATE, which the enum (and the
    aggregator's mapping) ranks below ELEVATED. *)
Theorem fraud_triangle_levels_not_monotone :
  forall s1 s2 : double,
    0.2 <= s1 < 0.4 ->
    0.4 <= s2 < 0.7 ->
    determine_risk_level s1 = ELEVATED
    /\ determine_risk_level s2 = MODERATE
    /\ (risk_rank (determine_risk_level s2) < risk_rank (determine_risk_level s1))%nat
    /\ (risk_rank (FraudAnalyzer.determine_risk_level s1)
        <= risk_rank (FraudAnalyzer.determine_risk_level s2))%nat.
Proof.
  intros s1 s2 H1 H2.
  unfold determine_risk_level, FraudAnalyzer.determine_risk_level,
    HIGH_RISK_THRESHOLD, MODERATE_RISK_THRESHOLD, LOW_RISK_THRESHOLD.
  dbl_cases; repeat split; cbn [risk_rank];
    first [reflexivity | lia | exfalso; lra].
Qed.

Lemma fraud_triangle_levels_not_monotone_witness :
  (0.2 <= 0.3 < 0.4 /\ 0.4 <= 0.5 < 0.7)
  /\ determine_risk_level 0.3 = ELEVATED
  /\ determine_risk_level 0.5 = MODERATE.
Proof.
  assert (H1 : 0.2 <= 0.3 < 0.4)
    by (split; [apply Qle_bool_iff; reflexivity | reflexivity]).
  assert (H2 : 0.4 <= 0.5 < 0.7)
    by (split; [apply Qle_bool_iff; reflexivity | reflexivity]).
  split; [split; assumption|].
  split.
  - exact (proj1 (fraud_triangle_levels_not_monotone 0.3 0.5 H1 H2)).
  - exact (proj1 (proj2 (fraud_triangle_levels_not_monotone 0.3 0.5 H1 H2))).
Defined.
End FraudTriangleEdges.

(** ** The digit-distribution model: counting and statistics (benford.cpp) *)

Section BenfordCounting.
Import BenfordModel.

Lemma increment_at_length (k : nat) (counts : list Z) :
  length (increment_at k counts) = length counts.
Proof.
  revert k. induction counts as [|c rest IH]; intros [|k]; cbn; try reflexivity.
  rewrite IH. reflexivity.
Qed.

Lemma increment_at_sum (k : nat) (counts : list Z) :
  (k < length counts)%nat -> zsum (increment_at k counts) = (zsum counts + 1)%Z.
Proof.
  revert k. induction counts as [|c rest IH]; intros [|k] Hk;
    cbn [length increment_at zsum fold_right] in *; try lia.
  fold (zsum (increment_at k rest)). fold (zsum rest).
  rewrite IH by lia. lia.
Qed.

Lemma increment_at_nonneg (k : nat) (counts : list Z) :
  Forall (fun c => (0 <= c)%Z) counts ->
  Forall (fun c => (0 <= c)%Z) (increment_at k counts).
Proof.
  revert k. induction counts as [|c rest IH]; intros [|k] H; cbn; try exact H.
  - inversion H; subst. constructor; [lia | assumption].
  - inversion H; subst. constructor; [assumption | apply IH; assumption].
Qed.

(** The invariant of the counting loop: nine non-negative counters whose
    sum is [total], which is the number of valid values seen so far. *)
Lemma count_first_digits_invariant (values : list xdouble) :
  forall (counts : list Z) (total : Z) (n : nat),
    length counts = 9%nat ->
    Forall (fun c => (0 <= c)%Z) counts ->
    zsum counts = total ->
    total = Z.of_nat n ->
    let st :=
      fold_left
        (fun '(counts, total) value =>
           let digit := extract_first_digit value in
           if (digit >=? 1)%Z && (digit <=? 9)%Z
           then (increment_at (Z.to_nat (digit - 1)) counts, (total + 1)%Z)
           else (counts, total))
        values (counts, total) in
    length (fst st) = 9%nat
    /\ Forall (fun c => (0 <= c)%Z) (fst st)
    /\ zsum (fst st) = snd st
    /\ snd st
       = Z.of_nat (fold_left (fun n v => if is_valid_value v then S n else n) values n).
Proof.
  induction values as [|v values IH]; intros counts total n Hlen Hpos Hsum Hn.
  - cbn. auto.
  - cbn [fold_left].
    destruct (is_valid_value v) eqn:Ev.
    + pose proof (extract_first_digit_valid v Ev) as Hd.
      replace (extract_first_digit v >=? 1)%Z with true
        by (symmetry; apply Z.geb_le; lia).
      replace (extract_first_digit v <=? 9)%Z with true
        by (symmetry; apply Z.leb_le; lia).
      cbn [andb].
      apply IH.
      * rewrite increment_at_length. exact Hlen.
      * apply increment_at_nonneg, Hpos.
      * rewrite increment_at_sum by (rewrite Hlen; lia). lia.
      * lia.
    + rewrite (extract_first_digit_invalid v Ev). cbn [Z.geb Z.compare andb].
      apply IH; assumption.
Qed.

Lemma count_first_digits_facts (values : list xdouble) :
  length (fst (count_first_digits values)) = 9%nat
  /\ Forall (fun c => (0 <= c)%Z) (fst (count_first_digits values))
  /\ zsum (fst (count_first_digits values)) = snd (count_first_digits values)
  /\ snd (count_first_digits values) = Z.of_nat (count_valid values).
Proof.
  unfold count_first_digits, count_valid.
  apply (count_first_digits_invariant values [0; 0; 0; 0; 0; 0; 0; 0; 0]%Z 0%Z O);
    try reflexivity.
  repeat constructor; lia.
Qed.

Lemma nine_counters (counts : list Z) :
  length counts = 9%nat ->
  exists c0 c1 c2 c3 c4 c5 c6 c7 c8, counts = [c0; c1; c2; c3; c4; c5; c6; c7; c8].
Proof.
  intro H.
  do 9 (destruct counts as [|? counts]; [discriminate H|]).
  destruct counts; [|discriminate H].
  repeat eexists.
Qed.

Lemma Qdiv_unit_interval (c t : Z) :
  (0 <= c <= t)%Z -> (0 < t)%Z -> 0 <= inject_Z c / inject_Z t <= 1.
Proof.
  intros Hc Ht.
  assert (Htq : 0 < inject_Z t) by (change 0 with (inject_Z 0); rewrite <- Zlt_Qlt; lia).
  assert (Hcq : 0 <= inject_Z c) by (change 0 with (inject_Z 0); rewrite <- Zle_Qle; lia).
  assert (Hct : inject_Z c <= inject_Z t) by (rewrite <- Zle_Qle; lia).
  split.
  - apply Qle_shift_div_l; [exact Htq | lra].
  - apply Qle_shift_div_r; [exact Htq | lra].
Qed.

(** X14: the actual distribution always has nine entries between 0 and
    1; the count [n] of valid values equals the number of digits counted,
    and as soon as one value is valid the nine frequencies sum to 1. *)
Theorem actual_distribution_is_a_distribution :
  forall values : list xdouble,
    length (calculate_actual_distribution values) = 9%nat
    /\ Forall (fun x => 0 <= x <= 1) (calculate_actual_distribution values)
    /\ snd (count_first_digits values) = Z.of_nat (count_valid values)
    /\ ((0 < count_valid values)%nat ->
        sum_doubles (calculate_actual_distribution values) == 1).
Proof.
  intro values.
  destruct (count_first_digits_facts values) as [Hlen [Hpos [Hsum Hn]]].
  unfold calculate_actual_distribution.
  destruct (count_first_digits values) as [counts total]. cbn [fst snd] in *.
  destruct (nine_counters counts Hlen)
    as [c0 [c1 [c2 [c3 [c4 [c5 [c6 [c7 [c8 ->]]]]]]]]].
  cbn [zsum fold_right] in Hsum.
  split; [reflexivity|]. split; [|split; [exact Hn|]].
  - cbn [map seq nth].
    destruct (total >? 0)%Z eqn:Et.
    + apply Z.gtb_lt in Et.
      repeat (apply Forall_cons_iff in Hpos; destruct Hpos as [? Hpos]).
      repeat constructor; apply Qdiv_unit_interval; lia.
    + repeat constructor; first [apply Qle_bool_iff; reflexivity].
  - intro Hvalid.
    assert (Et : (total >? 0)%Z = true) by (apply Z.gtb_lt; lia).
    cbn [map seq nth]. rewrite Et.
    unfold sum_doubles. cbn [fold_left].
    assert (Htq : ~ inject_Z total == 0).
    { intro H0. assert (Hz : (total = 0)%Z).
      { apply (proj1 (inject_Z_injective total 0)). exact H0. }
      lia. }
    assert (Hq : inject_Z c0 + inject_Z c1 + inject_Z c2 + inject_Z c3 + inject_Z c4
                 + inject_Z c5 + inject_Z c6 + inject_Z c7 + inject_Z c8
                 == inject_Z total).
    { rewrite <- Hsum. rewrite !inject_Z_plus. change (inject_Z 0) with 0. ring. }
    transitivity ((inject_Z c0 + inject_Z c1 + inject_Z c2 + inject_Z c3 + inject_Z c4
                   + inject_Z c5 + inject_Z c6 + inject_Z c7 + inject_Z c8)
                  / inject_Z total).
    + field. exact Htq.
    + rewrite Hq. field. exact Htq.
Qed.

Lemma actual_distribution_is_a_distribution_witness :
  (0 < count_valid [Finite 123; Finite 0.5; NaN; Finite (-45)])%nat
  /\ sum_doubles
       (calculate_actual_distribution [Finite 123; Finite 0.5; NaN; Finite (-45)]) == 1.
Proof.
  assert (H : (0 < count_valid [Finite 123; Finite 0.5; NaN; Finite (-45)])%nat)
    by (cbn; lia).
  split; [exact H|].
  exact (proj2 (proj2 (proj2 (actual_distribution_is_a_distribution _))) H).
Defined.
End BenfordCounting.

Section BenfordStatistics.
Import BenfordModel.

Lemma mad_sum_nonneg (expected actual : list double) (l : list nat) :
  forall acc : double,
    0 <= acc ->
    0 <= fold_left (fun sum i => sum + Qabs (nth i actual 0 - nth i expected 0)) l acc.
Proof.
  induction l as [|i l IH]; intros acc Hacc; cbn [fold_left].
  - exact Hacc.
  - apply IH.
    pose proof (Qabs_nonneg (nth i actual 0 - nth i expected 0)). lra.
Qed.

Lemma mad_sum_same (e : list double) (l : list nat) :
  forall acc : double,
    acc == 0 ->
    fold_left (fun sum i => sum + Qabs (nth i e 0 - nth i e 0)) l acc == 0.
Proof.
  induction l as [|i l IH]; intros acc Hacc; cbn [fold_left].
  - exact Hacc.
  - apply IH.
    assert (H : nth i e 0 - nth i e 0 == 0) by ring.
    rewrite H, Hacc. reflexivity.
Qed.

Lemma chi_square_sum_same (e : list double) (n : nat) (l : list nat) :
  forall acc : double,
    acc == 0 ->
    fold_left
      (fun chi_sq i =>
         let exp_count := nth i e 0 * inject_Z (Z.of_nat n) in
         let act_count := nth i e 0 * inject_Z (Z.of_nat n) in
         if exp_count >? 0
         then chi_sq + (act_count - exp_count) ^ 2 / exp_count
         else chi_sq)
      l acc == 0.
Proof.
  induction l as [|i l IH]; intros acc Hacc; cbn [fold_left].
  - exact Hacc.
  - apply IH. cbv zeta.
    destruct (nth i e 0 * inject_Z (Z.of_nat n) >? 0); [|exact Hacc].
    rewrite Hacc. unfold Qdiv. ring.
Qed.

(** X15: the MAD is never negative; when the actual distribution equals
    the expected one the MAD and the chi-square statistic are 0; and the
    nine expected first-digit frequencies sum to 1. *)
Theorem benford_statistics_at_conformity :
  (forall expected actual : list double, 0 <= calculate_mad expected actual)
  /\ (forall e : list double, calculate_mad e e == 0)
  /\ (forall (e : list double) (n : nat), calculate_chi_square e e n == 0)
  /\ sum_doubles get_expected_distribution == 1.
Proof.
  split; [|split; [|split]].
  - intros expected actual. unfold calculate_mad.
    pose proof (mad_sum_nonneg expected actual (seq 0 9) 0.0) as H.
    assert (H0 : 0 <= 0.0) by (apply Qle_bool_iff; reflexivity).
    specialize (H H0).
    apply Qle_shift_div_l; [reflexivity | lra].
  - intro e. unfold calculate_mad.
    rewrite (mad_sum_same e (seq 0 9) 0.0) by reflexivity. reflexivity.
  - intros e n. unfold calculate_chi_square.
    apply chi_square_sum_same. reflexivity.
  - reflexivity.
Qed.

(** X16: a MAD is suspicious exactly when its conformity level is
    "Nonconformity", that is when it exceeds 0.015; the other three
    levels are the bands up to 0.006, 0.012 and 0.015. *)
Theorem suspicious_iff_nonconformity :
  forall mad : double,
    (is_suspicious mad = true <-> get_conformity_level mad = "Nonconformity")
    /\ (is_suspicious mad = true <-> 0.015 < mad)
    /\ (get_conformity_level mad = "Close Conformity" <-> mad <= 0.006)
    /\ (get_conformity_level mad = "Acceptable Conformity" <-> 0.006 < mad <= 0.012)
    /\ (get_conformity_level mad = "Marginally Acceptable" <-> 0.012 < mad <= 0.015).
Proof.
  intro mad.
  unfold is_suspicious, get_conformity_level, MAD_CLOSE_CONFORMITY, MAD_ACCEPTABLE,
    MAD_MARGINALLY_ACCEPTABLE.
  dbl_cases; repeat split; intros;
    first [reflexivity | discriminate | lra | exfalso; lra].
Qed.

(** X17: [mad_to_risk] is monotone, stays in [0,1], is 0 for a MAD of at
    most 0, reaches 1 from a MAD of 0.02 on, and is MAD/0.02 in between. *)
Theorem mad_to_risk_shape :
  forall m1 m2 : double,
    m1 <= m2 ->
    mad_to_risk m1 <= mad_to_risk m2
    /\ 0 <= mad_to_risk m1 <= 1
    /\ (m1 <= 0 -> mad_to_risk m1 == 0)
    /\ (0.02 <= m1 -> mad_to_risk m1 == 1)
    /\ (0 <= m1 <= 0.02 -> mad_to_risk m1 == m1 * 50).
Proof.
  intros m1 m2 Hle. unfold mad_to_risk, clamp.
  assert (H1 : m1 / 0.02 == m1 * 50) by field.
  assert (H2 : m2 / 0.02 == m2 * 50) by field.
  dbl_cases; repeat split; intros; rewrite ?H1, ?H2 in *; lra.
Qed.

Lemma mad_to_risk_shape_witness :
  0.004 <= 0.016 /\ mad_to_risk 0.004 <= mad_to_risk 0.016.
Proof.
  assert (H : 0.004 <= 0.016) by (apply Qle_bool_iff; reflexivity).
  split; [exact H|].
  exact (proj1 (mad_to_risk_shape 0.004 0.016 H)).
Defined.
End BenfordStatistics.

Section FirstDigit.
Import BenfordModel.

Lemma pow10_pos (k : nat) : 0 < pow10 k.
Proof.
  unfold pow10. change 0 with (inject_Z 0). rewrite <- Zlt_Qlt.
  apply Z.pow_pos_nonneg; lia.
Qed.

Lemma pow10_succ (k : nat) : pow10 (S k) == 10 * pow10 k.
Proof.
  unfold pow10. rewrite Nat2Z.inj_succ, Z.pow_succ_r by lia.
  rewrite inject_Z_mult. reflexivity.
Qed.

Lemma pow10_mono (j k : nat) : (j <= k)%nat -> pow10 j <= pow10 k.
Proof.
  intro H. unfold pow10. rewrite <- Zle_Qle.
  apply Z.pow_le_mono_r; lia.
Qed.

Lemma decade_unique (x : double) (j k : nat) :
  pow10 j <= x < pow10 (S j) -> pow10 k <= x < pow10 (S k) -> j = k.
Proof.
  intros [Hj1 Hj2] [Hk1 Hk2].
  destruct (Nat.lt_trichotomy j k) as [H | [H | H]]; [|exact H|]; exfalso.
  - pose proof (pow10_mono (S j) k H). lra.
  - pose proof (pow10_mono (S k) j H). lra.
Qed.

Lemma divide_while_ge_10_spec (fuel : nat) :
  forall v : Q,
    1 <= v ->
    v < inject_Z (2 ^ Z.of_nat fuel) ->
    exists k : nat,
      divide_while_ge_10 fuel v == v / pow10 k /\ pow10 k <= v < pow10 (S k).
Proof.
  induction fuel as [|fuel IH]; intros v H1 Hv.
  - cbn in Hv. unfold inject_Z in Hv. exfalso. lra.
  - cbn [divide_while_ge_10].
    assert (Hdiv : v / 10.0 == v * (1 # 10)) by field.
    dbl_case.
    + rewrite Nat2Z.inj_succ, Z.pow_succ_r in Hv by lia.
      rewrite inject_Z_mult in Hv. change (inject_Z 2) with 2 in Hv.
      assert (Hpos : 0 < inject_Z (2 ^ Z.of_nat fuel)).
      { change 0 with (inject_Z 0). rewrite <- Zlt_Qlt. lia. }
      destruct (IH (v / 10.0)) as [k [Hk [Hlo Hhi]]].
      * rewrite Hdiv. lra.
      * rewrite Hdiv. lra.
      * exists (S k).
        pose proof (pow10_pos k) as Hp.
        pose proof (pow10_succ k) as Hs.
        pose proof (pow10_succ (S k)) as Hss.
        rewrite Hdiv in Hlo, Hhi.
        split; [|split; lra].
        rewrite Hk, Hs. field. lra.
    + exists O.
      assert (H0 : pow10 0 == 1) by reflexivity.
      assert (H10 : pow10 1 == 10) by reflexivity.
      split; [rewrite H0; field | split; lra].
Qed.

Lemma iteration_budget_bound (v : double) :
  0 <= v -> v < inject_Z (2 ^ Z.of_nat (iteration_budget v)).
Proof.
  intro Hv.
  apply Qle_lt_trans with (inject_Z (Qnum v)); [apply nonneg_below_numerator, Hv|].
  rewrite <- Zlt_Qlt. unfold iteration_budget.
  set (n := Z.max 1 (Qnum v)).
  assert (Hn : (1 <= n)%Z) by (unfold n; lia).
  assert (Hlog : (0 <= Z.log2_up n)%Z) by apply Z.log2_up_nonneg.
  rewrite Z2Nat.id by lia.
  rewrite Z.pow_add_r by lia.
  pose proof (Z.log2_up_spec n) as Hspec.
  destruct (Z.eq_dec n 1) as [E1|E1].
  - rewrite E1. cbn. unfold n in E1. lia.
  - specialize (Hspec ltac:(lia)).
    assert (Qnum v <= n)%Z by (unfold n; lia).
    lia.
Qed.

Lemma extract_first_digit_decade (q : Q) :
  1 <= Qabs q ->
  exists k : nat,
    pow10 k <= Qabs q < pow10 (S k)
    /\ extract_first_digit (Finite q) = Qfloor (Qabs q / pow10 k).
Proof.
  intro Hq.
  assert (Hvalid : is_valid_value (Finite q) = true).
  { apply is_valid_value_spec. exists q. split; [reflexivity | exact Hq]. }
  unfold extract_first_digit. rewrite Hvalid. cbn [negb].
  set (a := Qabs q) in *.
  destruct (divide_while_ge_10_spec (iteration_budget a) a Hq
              (iteration_budget_bound a ltac:(lra))) as [k [Hk Hb]].
  exists k. split; [exact Hb|].
  set (w := divide_while_ge_10 (iteration_budget a) a) in *.
  assert (Hw1 : 1 <= w) by (apply divide_while_ge_10_ge_1, Hq).
  assert (Hw10 : w < 10) by (apply divide_while_ge_10_exits; lra).
  rewrite (multiply_while_lt_1_idle _ w Hw1).
  rewrite trunc_to_int_floor by lra.
  assert (H1 : (1 <= Qfloor w)%Z).
  { change 1%Z with (Qfloor 1). apply Qfloor_resp_le, Hw1. }
  assert (H9 : (Qfloor w <= 9)%Z).
  { assert (H : (Qfloor w < 10)%Z); [|lia].
    rewrite Zlt_Qlt. apply Qle_lt_trans with w; [apply Qfloor_le|].
    change (inject_Z 10) with 10. exact Hw10. }
  replace (Qfloor w >=? 1)%Z with true by (symmetry; apply Z.geb_le; lia).
  replace (Qfloor w <=? 9)%Z with true by (symmetry; apply Z.leb_le; lia).
  cbn [andb]. apply Qfloor_comp. exact Hk.
Qed.



Lemma Qabs_opp_eq (q : Q) : Qabs (- q) = Qabs q.
Proof.
  destruct q as [n d]. unfold Qabs, Qopp. cbn [Qnum Qden].
  rewrite Z.abs_opp. reflexivity.
Qed.

(** X19: the first digit ignores the sign of a value and, for a valid
    value, its decimal scale: a value, its negation and ten times the
    value have the same first digit. *)
Theorem extract_first_digit_sign_and_scale :
  forall q : Q,
    extract_first_digit (Finite (- q)) = extract_first_digit (Finite q)
    /\ (1 <= Qabs q ->
        extract_first_digit (Finite (10 * q)) = extract_first_digit (Finite q)).
Proof.
  intro q. split.
  - unfold extract_first_digit, is_valid_value, abs_ge, isfinite.
    rewrite Qabs_opp_eq. reflexivity.
  - intro Hq.
    assert (Ha : Qabs (10 * q) == 10 * Qabs q).
    { rewrite Qabs_Qmult. reflexivity. }
    assert (Hq10 : 1 <= Qabs (10 * q)) by (rewrite Ha; lra).
    destruct (extract_first_digit_decade q Hq) as [k [Hb Hd]].
    destruct (extract_first_digit_decade (10 * q) Hq10) as [k' [Hb' Hd']].
    pose proof (pow10_succ k) as Hs.
    pose proof (pow10_succ (S k)) as Hss.
    pose proof (pow10_pos k) as Hp.
    assert (Hk : k' = S k).
    { apply (decade_unique (Qabs (10 * q))); [exact Hb'|]. rewrite Ha. lra. }
    subst k'. rewrite Hd, Hd'. apply Qfloor_comp.
    rewrite Ha, Hs. field. lra.
Qed.

Lemma extract_first_digit_sign_and_scale_witness :
  1 <= Qabs 37.5
  /\ extract_first_digit (Finite (10 * 37.5)) = extract_first_digit (Finite 37.5).
Proof.
  assert (H : 1 <= Qabs 37.5) by (apply Qle_bool_iff; reflexivity).
  split; [exact H|].
  exact (proj2 (extract_first_digit_sign_and_scale 37.5) H).
Defined.
End FirstDigit.

(** ** Small samples always look suspicious (benford.cpp, analyzer.cpp) *)

Section SmallSamples.
Import BenfordModel.

Lemma fmin_le_l (a b : double) : fmin a b <= a.
Proof. unfold fmin. dbl_case; lra. Qed.

Lemma fmin_le_r (a b : double) : fmin a b <= b.
Proof. unfold fmin. dbl_case; lra. Qed.

(** A multiple of [1/n] is at least [grid_gap e n] away from [e]. *)
Lemma grid_distance (e : Q) (n c : Z) :
  (0 < n)%Z -> grid_gap e n <= Qabs (inject_Z c / inject_Z n - e).
Proof.
  intro Hn. unfold grid_gap.
  set (N := inject_Z n).
  assert (HN : 0 < N) by (unfold N; change 0 with (inject_Z 0); rewrite <- Zlt_Qlt; lia).
  set (m := Qfloor (e * N)).
  pose proof (Qfloor_le (e * N)) as Hlo. fold m in Hlo.
  pose proof (Qlt_floor (e * N)) as Hhi. fold m in Hhi.
  set (r := / N).
  assert (Hr : 0 < r) by (apply Qinv_lt_0_compat; exact HN).
  assert (HNr : N * r == 1) by (unfold r; apply Qmult_inv_r; lra).
  assert (Hm : inject_Z m * r <= e).
  { assert (H : inject_Z m * r <= (e * N) * r)
      by (apply Qmult_le_compat_r; [exact Hlo | lra]).
    assert (H' : (e * N) * r == e * (N * r)) by ring.
    rewrite H', HNr in H. lra. }
  assert (Hm1 : e < inject_Z (m + 1) * r).
  { assert (H : (e * N) * r < inject_Z (m + 1) * r)
      by (apply Qmult_lt_compat_r; [exact Hr | exact Hhi]).
    assert (H' : (e * N) * r == e * (N * r)) by ring.
    rewrite H', HNr in H. lra. }
  change (inject_Z m / N) with (inject_Z m * r).
  change (inject_Z (m + 1) / N) with (inject_Z (m + 1) * r).
  change (inject_Z c / N) with (inject_Z c * r).
  pose proof (fmin_le_l (e - inject_Z m * r) (inject_Z (m + 1) * r - e)) as Hl.
  pose proof (fmin_le_r (e - inject_Z m * r) (inject_Z (m + 1) * r - e)) as Hgr.
  destruct (Z_le_gt_dec c m) as [Hc | Hc].
  - assert (Hcr : inject_Z c * r <= inject_Z m * r).
    { apply Qmult_le_compat_r; [rewrite <- Zle_Qle; exact Hc | lra]. }
    rewrite Qabs_neg by lra. lra.
  - assert (Hcr : inject_Z (m + 1) * r <= inject_Z c * r).
    { apply Qmult_le_compat_r; [rewrite <- Zle_Qle; lia | lra]. }
    rewrite Qabs_pos by lra. lra.
Qed.

Lemma fold_sum_le (f g : nat -> double) (l : list nat) :
  (forall i, In i l -> g i <= f i) ->
  forall acc acc' : double,
    acc' <= acc ->
    fold_left (fun sum i => sum + g i) l acc' <= fold_left (fun sum i => sum + f i) l acc.
Proof.
  induction l as [|i l IH]; intros Hall acc acc' Hacc; cbn [fold_left].
  - exact Hacc.
  - apply IH.
    + intros j Hj. apply Hall. right. exact Hj.
    + pose proof (Hall i (or_introl eq_refl)). lra.
Qed.

Lemma mad_floor_small (t : Z) : (1 <= t <= 15)%Z -> 0.015 < mad_floor t.
Proof.
  intro Ht.
  assert (H : (t = 1 \/ t = 2 \/ t = 3 \/ t = 4 \/ t = 5 \/ t = 6 \/ t = 7 \/ t = 8
               \/ t = 9 \/ t = 10 \/ t = 11 \/ t = 12 \/ t = 13 \/ t = 14 \/ t = 15)%Z)
    by lia.
  repeat (destruct H as [-> | H]; [vm_compute; reflexivity|]).
  subst t. vm_compute. reflexivity.
Qed.

Lemma mad_above_floor (values : list xdouble) :
  (0 < count_valid values)%nat ->
  mad_floor (Z.of_nat (count_valid values))
  <= calculate_mad get_expected_distribution (calculate_actual_distribution values).
Proof.
  intro Hvalid.
  destruct (count_first_digits_facts values) as [Hlen [_ [_ Hn]]].
  unfold calculate_actual_distribution.
  destruct (count_first_digits values) as [counts total]. cbn [fst snd] in *.
  destruct (nine_counters counts Hlen)
    as [c0 [c1 [c2 [c3 [c4 [c5 [c6 [c7 [c8 ->]]]]]]]]].
  assert (Et : (total >? 0)%Z = true) by (apply Z.gtb_lt; lia).
  rewrite Et. rewrite <- Hn.
  assert (Htot : (0 < total)%Z) by lia.
  unfold mad_floor, calculate_mad, get_expected_distribution.
  apply Qmult_le_compat_r; [|apply Qle_bool_iff; reflexivity].
  apply fold_sum_le; [|lra].
  intros i Hin. cbn [seq In] in Hin.
  repeat (destruct Hin as [<- | Hin];
          [cbn [map seq nth]; apply grid_distance; exact Htot|]).
  destruct Hin.
Qed.

Lemma calculate_statistics (L : Libm) (values : list xdouble) :
  (0 < count_valid values)%nat ->
  BenfordResult.mad (calculate values)
  = calculate_mad get_expected_distribution (calculate_actual_distribution values)
  /\ BenfordResult.is_suspicious (calculate values)
     = is_suspicious (calculate_mad get_expected_distribution
                        (calculate_actual_distribution values)).
Proof.
  intro Hn. unfold calculate.
  assert (E : (0 <? count_valid values)%nat = true) by (apply Nat.ltb_lt; lia).
  rewrite E. split; reflexivity.
Qed.

Lemma small_sample_mad (values : list xdouble) :
  (1 <= count_valid values <= 15)%nat ->
  0.015 < calculate_mad get_expected_distribution (calculate_actual_distribution values).
Proof.
  intro Hn.
  apply Qlt_le_trans with (mad_floor (Z.of_nat (count_valid values))).
  - apply mad_floor_small. lia.
  - apply mad_above_floor. lia.
Qed.

(** X20: an input with between 1 and 15 valid values is always reported
    as suspicious: frequencies that are multiples of 1/n cannot come
    close enough to the expected distribution for n up to 15, so the MAD
    exceeds 0.015 whatever the values are. *)
Theorem small_samples_are_suspicious :
  forall (L : Libm) (values : list xdouble),
    (1 <= count_valid values <= 15)%nat ->
    0.015 < BenfordResult.mad (calculate values)
    /\ BenfordResult.is_suspicious (calculate values) = true.
Proof.
  intros L values Hn.
  destruct (calculate_statistics L values ltac:(lia)) as [-> ->].
  pose proof (small_sample_mad values Hn) as H.
  split; [exact H|].
  unfold is_suspicious, MAD_MARGINALLY_ACCEPTABLE. apply Qltb_true. exact H.
Qed.

Lemma small_samples_are_suspicious_witness :
  (1 <= count_valid [Finite 301; Finite 176; Finite 2.5; Finite 0.1; NaN] <= 15)%nat
  /\ BenfordResult.is_suspicious
       (calculate [Finite 301; Finite 176; Finite 2.5; Finite 0.1; NaN]) = true.
Proof.
  assert (H : (1 <= count_valid [Finite 301; Finite 176; Finite 2.5; Finite 0.1; NaN]
               <= 15)%nat) by (cbn; lia).
  split; [exact H|].
  exact (proj2 (small_samples_are_suspicious rational_libm _ H)).
Defined.
End SmallSamples.

(** ** The aggregator: what an analysis contains (analyzer.cpp) *)

Section Analysis.
Import FraudAnalyzer AnalysisResultUpdate.

(** The fields of the result of an analysis of two or more snapshots. *)
Lemma analysis_fields (L : Libm) (self : FraudAnalyzer.t) (ts : string)
      (financials : list FinancialData) (company : CompanyInfo.t) :
  (2 <= length financials)%nat ->
  AnalysisResult.beneish (fst (analyze_financials self ts financials company))
  = Some (BeneishModel.calculate (nth 0 financials default_FinancialData)
                                 (nth 1 financials default_FinancialData))
  /\ AnalysisResult.altman (fst (analyze_financials self ts financials company))
     = Some (AltmanModel.calculate_ (nth 0 financials default_FinancialData))
  /\ AnalysisResult.piotroski (fst (analyze_financials self ts financials company))
     = Some (PiotroskiModel.calculate (nth 0 financials default_FinancialData)
                                      (nth 1 financials default_FinancialData))
  /\ AnalysisResult.fraud_triangle (fst (analyze_financials self ts financials company))
     = Some (FraudTriangleModel.calculate financials)
  /\ AnalysisResult.benford (fst (analyze_financials self ts financials company))
     = Some (BenfordModel.calculate (map Finite (extract_all_values financials)))
  /\ AnalysisResult.red_flags (fst (analyze_financials self ts financials company))
     = detect_red_flags (fst (analyze_financials self ts financials company))
  /\ AnalysisResult.trends (fst (analyze_financials self ts financials company))
     = analyze_trends financials
  /\ AnalysisResult.composite_risk_score
       (fst (analyze_financials self ts financials company))
     = calculate_composite_score self
         (fst (analyze_financials self ts financials company))
  /\ AnalysisResult.overall_risk_level
       (fst (analyze_financials self ts financials company))
     = determine_risk_level
         (AnalysisResult.composite_risk_score
            (fst (analyze_financials self ts financials company)))
  /\ AnalysisResult.recommendation
       (fst (analyze_financials self ts financials company))
     = generate_recommendation (fst (analyze_financials self ts financials company)).
Proof.
  intro Hlen.
  unfold analyze_financials.
  destruct (length financials <? 2)%nat eqn:E.
  { apply Nat.ltb_lt in E. lia. }
  cbv zeta.
  generalize (BeneishModel.calculate (nth 0 financials default_FinancialData)
                (nth 1 financials default_FinancialData)).
  generalize (AltmanModel.calculate_ (nth 0 financials default_FinancialData)).
  generalize (PiotroskiModel.calculate (nth 0 financials default_FinancialData)
                (nth 1 financials default_FinancialData)).
  generalize (FraudTriangleModel.calculate financials).
  generalize (BenfordModel.calculate (map Finite (extract_all_values financials))).
  generalize (analyze_trends financials).
  intros tr bf ft p a b.
  unfold detect_red_flags, calculate_composite_score, generate_recommendation.
  cbn [fst set_header set_models set_red_flags set_trends set_composite_risk_score
       set_overall_risk_level set_texts
       AnalysisResult.beneish AnalysisResult.altman AnalysisResult.piotroski
       AnalysisResult.fraud_triangle AnalysisResult.benford AnalysisResult.red_flags
       AnalysisResult.trends AnalysisResult.composite_risk_score
       AnalysisResult.overall_risk_level AnalysisResult.recommendation].
  repeat split.
Qed.

Lemma count_valid_filter (values : list xdouble) :
  BenfordModel.count_valid values
  = length (filter BenfordModel.is_valid_value values).
Proof.
  unfold BenfordModel.count_valid.
  assert (H : forall n,
             fold_left (fun n v => if BenfordModel.is_valid_value v then S n else n)
                       values n
             = (n + length (filter BenfordModel.is_valid_value values))%nat).
  { induction values as [|v values IH]; intro n; cbn [fold_left filter].
    - cbn. lia.
    - rewrite IH. destruct (BenfordModel.is_valid_value v); cbn [length]; lia. }
  rewrite H. lia.
Qed.

Lemma extract_all_values_length (financials : list FinancialData) :
  length (extract_all_values financials) = (5 * length financials)%nat.
Proof.
  unfold extract_all_values.
  induction financials as [|f rest IH]; [reflexivity|].
  cbn [flat_map]. rewrite length_app, IH. cbn [length]. lia.
Qed.

Lemma benford_flag_raised (r : AnalysisResult.t) (bf : BenfordResult.t) :
  AnalysisResult.benford r = Some bf ->
  BenfordResult.is_suspicious bf = true ->
  In "BENFORD_ANOMALY" (red_flag_types r).
Proof.
  intros Hbf Hs. unfold red_flag_types, detect_red_flags.
  rewrite Hbf, Hs. rewrite !map_app, !in_app_iff.
  right. right. right. right. left. reflexivity.
Qed.

(** X21: an analysis of two or three snapshots in which at least one of
    the extracted figures has magnitude 1 or more always finds the digit
    distribution suspicious and raises the BENFORD_ANOMALY red flag: the
    five figures per period give at most 15 values. *)
Theorem short_history_raises_benford_flag :
  forall (L : Libm) (self : FraudAnalyzer.t) (ts : string)
         (financials : list FinancialData) (company : CompanyInfo.t),
    (2 <= length financials <= 3)%nat ->
    (exists x, In x (extract_all_values financials) /\ 1 <= Qabs x) ->
    (exists bf,
        AnalysisResult.benford (fst (analyze_financials self ts financials company))
        = Some bf
        /\ BenfordResult.is_suspicious bf = true)
    /\ In "BENFORD_ANOMALY"
          (map RedFlag.type
               (AnalysisResult.red_flags
                  (fst (analyze_financials self ts financials company)))).
Proof.
  intros L self ts financials company Hlen [x [Hin Hx]].
  destruct (analysis_fields L self ts financials company ltac:(lia))
    as [_ [_ [_ [_ [Hbf [Hflags _]]]]]].
  assert (Hcount : (1 <= BenfordModel.count_valid
                          (map Finite (extract_all_values financials)) <= 15)%nat).
  { rewrite count_valid_filter. split.
    - assert (Hf : In (Finite x)
                      (filter BenfordModel.is_valid_value
                              (map Finite (extract_all_values financials)))).
      { apply filter_In. split; [apply in_map, Hin|].
        apply is_valid_value_spec. exists x. split; [reflexivity | exact Hx]. }
      destruct (filter BenfordModel.is_valid_value
                       (map Finite (extract_all_values financials)));
        [destruct Hf | cbn [length]; lia].
    - pose proof (filter_length_le BenfordModel.is_valid_value
                    (map Finite (extract_all_values financials))) as Hle.
      rewrite length_map, extract_all_values_length in Hle. lia. }
  assert (Hs : BenfordResult.is_suspicious
                 (BenfordModel.calculate (map Finite (extract_all_values financials)))
               = true).
  { assert (Hpos : (0 < BenfordModel.count_valid
                          (map Finite (extract_all_values financials)))%nat) by lia.
    rewrite (proj2 (calculate_statistics L _ Hpos)).
    apply Qltb_true. apply (small_sample_mad _ Hcount). }
  split.
  - eexists. split; [exact Hbf | exact Hs].
  - rewrite Hflags. apply (benford_flag_raised _ _ Hbf Hs).
Qed.

Lemma short_history_raises_benford_flag_witness :
  ((2 <= length [scenario_snapshot; prior_snapshot] <= 3)%nat
   /\ exists x, In x (extract_all_values [scenario_snapshot; prior_snapshot])
                /\ 1 <= Qabs x)
  /\ In "BENFORD_ANOMALY"
        (map RedFlag.type
             (AnalysisResult.red_flags
                (fst (analyze_financials create example_timestamp
                        [scenario_snapshot; prior_snapshot] CompanyInfo.default)))).
Proof.
  assert (H1 : (2 <= length [scenario_snapshot; prior_snapshot] <= 3)%nat)
    by (cbn; lia).
  assert (H2 : exists x, In x (extract_all_values [scenario_snapshot; prior_snapshot])
                         /\ 1 <= Qabs x).
  { exists 900. split; [left; reflexivity | apply Qle_bool_iff; reflexivity]. }
  split; [split; assumption|].
  exact (proj2 (short_history_raises_benford_flag rational_libm create example_timestamp
                  [scenario_snapshot; prior_snapshot] CompanyInfo.default H1 H2)).
Defined.
End Analysis.

(** ** Red flags, trends and the error slot (analyzer.cpp) *)

Section RedFlagsAndTrends.
Import FraudAnalyzer AnalysisResultUpdate.

(** X22: the red-flag list of any result holds at most five flags, no
    type twice, and a type is present exactly when its rule fires:
    EARNINGS_MANIPULATION when the manipulation verdict is set,
    BANKRUPTCY_RISK when the Z-score is below 1.81, WEAK_FUNDAMENTALS
    when the F-score is at most 3, FRAUD_TRIANGLE when the overall risk
    exceeds 0.6, BENFORD_ANOMALY when the digit result is suspicious; so
    the cap in min(1, count/5) never binds. *)
Theorem red_flag_rules :
  forall r : AnalysisResult.t,
    (length (detect_red_flags r) <= 5)%nat
    /\ NoDup (red_flag_types r)
    /\ (In "EARNINGS_MANIPULATION" (red_flag_types r)
        <-> match AnalysisResult.beneish r with
            | Some b => BeneishResult.likely_manipulator b
            | None => false
            end = true)
    /\ (In "BANKRUPTCY_RISK" (red_flag_types r)
        <-> match AnalysisResult.altman r with
            | Some a => AltmanResult.z_score a <? 1.81
            | None => false
            end = true)
    /\ (In "WEAK_FUNDAMENTALS" (red_flag_types r)
        <-> match AnalysisResult.piotroski r with
            | Some p => (PiotroskiResult.f_score p <=? 3)%Z
            | None => false
            end = true)
    /\ (In "FRAUD_TRIANGLE" (red_flag_types r)
        <-> match AnalysisResult.fraud_triangle r with
            | Some ft => FraudTriangleResult.overall_risk ft >? 0.6
            | None => false
            end = true)
    /\ (In "BENFORD_ANOMALY" (red_flag_types r)
        <-> match AnalysisResult.benford r with
            | Some bf => BenfordResult.is_suspicious bf
            | None => false
            end = true)
    /\ fmin 1.0 (inject_Z (Z.of_nat (length (detect_red_flags r))) / 5.0)
       == inject_Z (Z.of_nat (length (detect_red_flags r))) / 5.
Proof.
  intro r. unfold red_flag_types, detect_red_flags.
  destruct (AnalysisResult.beneish r) as [b|];
    [destruct (BeneishResult.likely_manipulator b)|];
    (destruct (AnalysisResult.altman r) as [a|];
     [destruct (AltmanResult.z_score a <? 1.81)|]);
    (destruct (AnalysisResult.piotroski r) as [p|];
     [destruct (PiotroskiResult.f_score p <=? 3)%Z|]);
    (destruct (AnalysisResult.fraud_triangle r) as [ft|];
     [destruct (FraudTriangleResult.overall_risk ft >? 0.6)|]);
    (destruct (AnalysisResult.benford r) as [bf|];
     [destruct (BenfordResult.is_suspicious bf)|]);
    cbn [app map length RedFlag.type];
    (split; [lia|]);
    (split; [repeat constructor; cbn [In]; intuition discriminate|]);
    repeat (split;
            [split; intro H;
             first [reflexivity | discriminate H
                   | cbn [In]; tauto
                   | cbn [In] in H; exfalso; intuition discriminate]|]);
    reflexivity.
Qed.

Lemma last_of_snoc (a : FinancialData) (mid : list FinancialData) (b d : FinancialData) :
  last (a :: mid ++ [b]) d = b.
Proof.
  change (a :: mid ++ [b]) with ((a :: mid) ++ [b]). apply last_last.
Qed.

Lemma analyze_trends_two_ends (a b : FinancialData) (mid : list FinancialData) :
  analyze_trends (a :: mid ++ [b]) = analyze_trends [a; b].
Proof.
  unfold analyze_trends.
  assert (E : (length (a :: mid ++ [b]) <? 2)%nat = false).
  { apply Nat.ltb_ge. cbn [length]. rewrite length_app. cbn [length]. lia. }
  rewrite E. rewrite last_of_snoc. reflexivity.
Qed.

(** X23: the trend analysis looks only at the first and the last snapshot
    of the sequence, whatever lies between them, and never sets the
    cash-flow, debt and margin trends or the observations; on fewer than
    two snapshots every trend is STABLE. *)
Theorem analyze_trends_endpoints :
  (forall (a b : FinancialData) (mid : list FinancialData),
      analyze_trends (a :: mid ++ [b]) = analyze_trends [a; b])
  /\ (forall financials : list FinancialData,
         TrendAnalysis.cash_flow_trend (analyze_trends financials) = STABLE
         /\ TrendAnalysis.debt_trend (analyze_trends financials) = STABLE
         /\ TrendAnalysis.margin_trend (analyze_trends financials) = STABLE
         /\ TrendAnalysis.observations (analyze_trends financials) = []
         /\ ((length financials < 2)%nat ->
             analyze_trends financials = TrendAnalysis.default)).
Proof.
  split.
  - exact analyze_trends_two_ends.
  - intro financials. unfold analyze_trends.
    destruct (length financials <? 2)%nat eqn:E.
    + repeat split.
    + repeat split. intro H. apply Nat.ltb_ge in E. lia.
Qed.

Lemma analyze_trends_endpoints_witness :
  (length [scenario_snapshot] < 2)%nat
  /\ analyze_trends [scenario_snapshot] = TrendAnalysis.default.
Proof.
  assert (H : (length [scenario_snapshot] < 2)%nat) by (cbn; lia).
  split; [exact H|].
  exact (proj2 (proj2 (proj2 (proj2 (proj2 analyze_trends_endpoints
                                       [scenario_snapshot])))) H).
Defined.

(** X24: trends compare against 1.05 and 0.95 times the oldest figure, so
    the sign of the figure matters: an unchanged negative net income is
    reported as IMPROVING, an unchanged non-negative one as STABLE. *)
Theorem unchanged_income_trend :
  forall (a b : FinancialData) (mid : list FinancialData),
    net_income (income_statement a) == net_income (income_statement b) ->
    (net_income (income_statement a) < 0 ->
     TrendAnalysis.income_trend (analyze_trends (a :: mid ++ [b])) = IMPROVING)
    /\ (0 <= net_income (income_statement a) ->
        TrendAnalysis.income_trend (analyze_trends (a :: mid ++ [b])) = STABLE).
Proof.
  intros a b mid Heq.
  rewrite (analyze_trends_two_ends a b mid).
  unfold analyze_trends. cbn [length Nat.ltb Nat.leb hd last TrendAnalysis.income_trend].
  split; intro Hsign; dbl_cases; first [reflexivity | exfalso; lra].
Qed.

Lemma unchanged_income_trend_witness :
  (net_income (income_statement (snapshot_with 500 (-100) 0 default_BalanceSheet))
   == net_income (income_statement (snapshot_with 600 (-100) 0 default_BalanceSheet))
   /\ net_income (income_statement (snapshot_with 500 (-100) 0 default_BalanceSheet)) < 0)
  /\ TrendAnalysis.income_trend
       (analyze_trends (snapshot_with 500 (-100) 0 default_BalanceSheet
                        :: [] ++ [snapshot_with 600 (-100) 0 default_BalanceSheet]))
     = IMPROVING.
Proof.
  assert (H1 : net_income (income_statement
                             (snapshot_with 500 (-100) 0 default_BalanceSheet))
               == net_income (income_statement
                                (snapshot_with 600 (-100) 0 default_BalanceSheet)))
    by reflexivity.
  assert (H2 : net_income (income_statement
                             (snapshot_with 500 (-100) 0 default_BalanceSheet)) < 0)
    by reflexivity.
  split; [split; assumption|].
  exact (proj1 (unchanged_income_trend _ _ [] H1) H2).
Defined.

(** X25: the analyzer never clears its error slot: once an error is
    recorded, every later analysis, successful or not, leaves
    [has_error] true; and a failed analysis followed by a successful one
    still reports the insufficient-data message. *)
Theorem error_slot_is_sticky :
  forall (L : Libm) (self : FraudAnalyzer.t) (ts ts' : string)
         (financials financials' : list FinancialData) (company : CompanyInfo.t),
    (has_error self = true ->
     has_error (snd (analyze_financials self ts financials company)) = true)
    /\ ((length financials < 2)%nat ->
        (2 <= length financials')%nat ->
        get_last_error
          (snd (analyze_financials
                  (snd (analyze_financials self ts financials company))
                  ts' financials' company))
        = "Insufficient financial data for analysis").
Proof.
  intros L self ts ts' financials financials' company. split.
  - intro H. unfold analyze_financials.
    destruct (length financials <? 2)%nat; cbn [snd]; [reflexivity | exact H].
  - intros H1 H2. unfold analyze_financials.
    apply Nat.ltb_lt in H1. apply Nat.ltb_ge in H2. rewrite H1, H2.
    reflexivity.
Qed.

Lemma error_slot_is_sticky_witness :
  ((length [scenario_snapshot] < 2)%nat
   /\ (2 <= length [scenario_snapshot; prior_snapshot])%nat)
  /\ has_error
       (snd (analyze_financials
               (snd (analyze_financials create example_timestamp
                       [scenario_snapshot] CompanyInfo.default))
               example_timestamp [scenario_snapshot; prior_snapshot]
               CompanyInfo.default)) = true.
Proof.
  assert (H1 : (length [scenario_snapshot] < 2)%nat) by (cbn; lia).
  assert (H2 : (2 <= length [scenario_snapshot; prior_snapshot])%nat) by (cbn; lia).
  split; [split; assumption|].
  apply (proj1 (error_slot_is_sticky rational_libm _ example_timestamp example_timestamp
                  [scenario_snapshot; prior_snapshot] [] CompanyInfo.default)).
  reflexivity.
Defined.
End RedFlagsAndTrends.

(** ** A floor under the composite score (analyzer.cpp) *)

Section CompositeFloor.
Import FraudAnalyzer AnalysisResultUpdate.






End CompositeFloor.

(** ** The second-digit model on empty input (benford.cpp) *)

Section SecondDigit.
Import BenfordSecondDigitModel.

Lemma count_second_digits_skips (values : list xdouble) :
  (forall v, In v values -> is_counted v = false) ->
  forall st : list Z * Z,
    fold_left
      (fun '(counts, total) value =>
         if is_counted value then
           let d := second_digit value in
           if (d >=? 0)%Z && (d <=? 9)%Z
           then (BenfordModel.increment_at (Z.to_nat d) counts, (total + 1)%Z)
           else (counts, total)
         else (counts, total))
      values st = st.
Proof.
  induction values as [|v values IH]; intros Hall st.
  - reflexivity.
  - cbn [fold_left]. destruct st as [counts total].
    rewrite (Hall v) by (left; reflexivity).
    apply IH. intros w Hw. apply Hall. right. exact Hw.
Qed.

(** X27: unlike the first-digit model, the second-digit model reports an
    input without any finite value of magnitude 10 or more (the empty
    input included) as suspicious: all ten frequencies are 0, so the MAD
    is a tenth of the sum of the expected table, 0.10001, above the 0.012
    threshold. *)
Theorem second_digit_empty_input_is_suspicious :
  forall values : list xdouble,
    (forall v, In v values -> is_counted v = false) ->
    Forall (fun x => x == 0) (BenfordResult.actual_distribution (calculate values))
    /\ BenfordResult.mad (calculate values) == 0.10001
    /\ BenfordResult.is_suspicious (calculate values) = true.
Proof.
  intros values Hall.
  unfold calculate, count_second_digits.
  rewrite (count_second_digits_skips values Hall).
  cbn [BenfordResult.actual_distribution BenfordResult.mad BenfordResult.is_suspicious].
  split; [|split].
  - cbn. repeat constructor.
  - vm_compute. reflexivity.
  - vm_compute. reflexivity.
Qed.

Lemma second_digit_empty_input_is_suspicious_witness :
  (forall v, In v [Finite 9.5; Finite 0; PosInf; NaN] -> is_counted v = false)
  /\ BenfordResult.is_suspicious (calculate [Finite 9.5; Finite 0; PosInf; NaN]) = true.
Proof.
  assert (H : forall v, In v [Finite 9.5; Finite 0; PosInf; NaN] -> is_counted v = false).
  { intros v Hin. cbn [In] in Hin.
    repeat (destruct Hin as [<- | Hin]; [reflexivity|]). destruct Hin. }
  split; [exact H|].
  exact (proj2 (proj2 (second_digit_empty_input_is_suspicious _ H))).
Defined.



End SecondDigit.

(** ** The report fields of an analysis (analyzer.cpp) *)

Section Report.
Import FraudAnalyzer AnalysisResultUpdate.

(** X29: the report fields of a result agree with one another.  The
    number of filings analysed is the number of snapshots supplied.  With
    two or more snapshots the level is the band of the reported score,
    the recommendation begins with the name of that level followed by
    " RISK: ", and the summary counts the reported red flags.  With fewer
    than two snapshots the score is 0 and the level LOW, but there is no
    recommendation and no summary at all, no red flag and every trend is
    left at its default. *)
Theorem analysis_report_is_consistent :
  forall (L : Libm) (self : FraudAnalyzer.t) (ts : string)
         (financials : list FinancialData) (company : CompanyInfo.t),
    AnalysisResult.filings_analyzed
      (fst (analyze_financials self ts financials company))
    = Z.of_nat (length financials)
    /\ ((2 <= length financials)%nat ->
        AnalysisResult.overall_risk_level
          (fst (analyze_financials self ts financials company))
        = determine_risk_level
            (AnalysisResult.composite_risk_score
               (fst (analyze_financials self ts financials company)))
        /\ String.prefix
             (risk_level_to_string
                (AnalysisResult.overall_risk_level
                   (fst (analyze_financials self ts financials company)))
              ++ " RISK: ")
             (AnalysisResult.recommendation
                (fst (analyze_financials self ts financials company))) = true
        /\ AnalysisResult.risk_summary
             (fst (analyze_financials self ts financials company))
           = ("Analysis complete with "
              ++ to_string_size
                   (length (AnalysisResult.red_flags
                              (fst (analyze_financials self ts financials company))))
              ++ " red flags detected.")%string)
    /\ ((length financials < 2)%nat ->
        AnalysisResult.composite_risk_score
          (fst (analyze_financials self ts financials company)) == 0
        /\ AnalysisResult.overall_risk_level
             (fst (analyze_financials self ts financials company)) = LOW
        /\ AnalysisResult.recommendation
             (fst (analyze_financials self ts financials company)) = EmptyString
        /\ AnalysisResult.risk_summary
             (fst (analyze_financials self ts financials company)) = EmptyString
        /\ AnalysisResult.red_flags
             (fst (analyze_financials self ts financials company)) = []
        /\ AnalysisResult.trends
             (fst (analyze_financials self ts financials company))
           = TrendAnalysis.default).
Proof.
  intros L self ts financials company.
  unfold analyze_financials.
  destruct (length financials <? 2)%nat eqn:E.
  - apply Nat.ltb_lt in E.
    split; [reflexivity|]. split; [intro Hlen; lia|].
    intros _. cbn. repeat split; reflexivity.
  - apply Nat.ltb_ge in E.
    cbv zeta.
    generalize (BeneishModel.calculate (nth 0 financials default_FinancialData)
                  (nth 1 financials default_FinancialData)).
    generalize (AltmanModel.calculate_ (nth 0 financials default_FinancialData)).
    generalize (PiotroskiModel.calculate (nth 0 financials default_FinancialData)
                  (nth 1 financials default_FinancialData)).
    generalize (FraudTriangleModel.calculate financials).
    generalize (BenfordModel.calculate (map Finite (extract_all_values financials))).
    generalize (analyze_trends financials).
    intros tr bf ft p a b.
    unfold generate_recommendation.
    cbn [fst set_header set_models set_red_flags set_trends set_composite_risk_score
         set_overall_risk_level set_texts
         AnalysisResult.filings_analyzed AnalysisResult.red_flags
         AnalysisResult.composite_risk_score AnalysisResult.overall_risk_level
         AnalysisResult.recommendation AnalysisResult.risk_summary].
    split; [reflexivity|]. split; [|intro Hlt; lia].
    intros _. split; [reflexivity|]. split; [|reflexivity].
    match goal with
    | |- context [determine_risk_level ?s] => generalize (determine_risk_level s)
    end.
    intro level. destruct level; reflexivity.
Qed.

Lemma analysis_report_is_consistent_witness :
  (2 <= length [scenario_snapshot; prior_snapshot])%nat
  /\ AnalysisResult.overall_risk_level
       (fst (analyze_financials create example_timestamp
               [scenario_snapshot; prior_snapshot] CompanyInfo.default))
     = determine_risk_level
         (AnalysisResult.composite_risk_score
            (fst (analyze_financials create example_timestamp
                    [scenario_snapshot; prior_snapshot] CompanyInfo.default))).
Proof.
  assert (Hlen : (2 <= length [scenario_snapshot; prior_snapshot])%nat) by (cbn; lia).
  split; [exact Hlen|].
  exact (proj1 (proj1 (proj2 (analysis_report_is_consistent rational_libm create
                                example_timestamp [scenario_snapshot; prior_snapshot]
                                CompanyInfo.default)) Hlen)).
Defined.
End Report.
